(** * Verification of the RFP analyzer (src/rfp_analyzer.py)

    Shallow embedding of the text chunker [_split_text_into_chunks], of the
    embedding aggregation [get_embedding], of the response parsing in
    [analyze_rfp_with_gpt] and of the field flattening in
    [store_rfp_in_search].

    Python strings are sequences of Unicode code points: a [str] is a
    [list N], and [len] is [length].  Library functions of Python and the
    hosted services (json.loads, json.dumps, str(), the embedding and chat
    endpoints) are parameters of the Sections that use them. *)

From Stdlib Require Import String Ascii.
From Stdlib Require Import List Bool Arith Lia NArith QArith.
Import ListNotations.

Set Warnings "-register-all".
Open Scope nat_scope.
Open Scope list_scope.

(** ** Python strings *)

Definition str := list N.

(** An ASCII literal as a Python string. *)
Definition lit (x : string) : str :=
  map (fun a => N_of_ascii a) (list_ascii_of_string x).

Definition str_eqb (a b : str) : bool :=
  if list_eq_dec N.eq_dec a b then true else false.

Definition is_nonempty (s : str) : bool :=
  match s with [] => false | _ => true end.

(** [str.isspace] for one code point, the predicate used by [str.split()] and
    [str.strip()] without arguments (Py_UNICODE_ISSPACE). *)
Definition is_space (c : N) : bool :=
  ((9 <=? c) && (c <=? 13))%N || ((28 <=? c) && (c <=? 32))%N
  || (c =? 133)%N || (c =? 160)%N || (c =? 5760)%N
  || ((8192 <=? c) && (c <=? 8202))%N
  || (c =? 8232)%N || (c =? 8233)%N || (c =? 8239)%N || (c =? 8287)%N
  || (c =? 12288)%N.

Definition space : N := 32%N.
Definition dot : N := 46%N.

Fixpoint drop_spaces (s : str) : str :=
  match s with
  | [] => []
  | c :: s' => if is_space c then drop_spaces s' else s
  end.

(** [s.strip()] *)
Definition py_strip (s : str) : str :=
  rev (drop_spaces (rev (drop_spaces s))).

(** [s.split()]: the maximal runs of non-space characters; [cur] is the
    current run, reversed. *)
Fixpoint split_ws_aux (s cur : str) : list str :=
  match s with
  | [] => if is_nonempty cur then [rev cur] else []
  | c :: s' =>
      if is_space c
      then (if is_nonempty cur then rev cur :: split_ws_aux s' []
            else split_ws_aux s' [])
      else split_ws_aux s' (c :: cur)
  end.

Definition py_split_ws (s : str) : list str := split_ws_aux s [].

(** [s.split('. ')]; [cur] is the current fragment, reversed. *)
Fixpoint split_dot_space_aux (s cur : str) : list str :=
  match s with
  | [] => [rev cur]
  | c :: s' =>
      if (c =? dot)%N
      then match s' with
           | d :: s'' =>
               if (d =? space)%N then rev cur :: split_dot_space_aux s'' []
               else split_dot_space_aux s' (c :: cur)
           | [] => split_dot_space_aux s' (c :: cur)
           end
      else split_dot_space_aux s' (c :: cur)
  end.

Definition py_split_dot_space (s : str) : list str := split_dot_space_aux s [].

(** ** The chunker: [_split_text_into_chunks] *)

Section Chunker.

Variable max_chunk_size : nat.

Definition dot_space : str := [dot; space].

(** One iteration of the word loop
    [for word in words: if len(temp_chunk + " " + word) <= max_chunk_size: ...],
    appending flushed chunks to [out] (the [chunks] list in the sentence pass,
    [final_chunks] in the re-scan). *)
Definition word_step (st : list str * str) (word : str) : list str * str :=
  let '(out, temp_chunk) := st in
  if length (temp_chunk ++ space :: word) <=? max_chunk_size
  then (out, if is_nonempty temp_chunk then temp_chunk ++ space :: word
             else temp_chunk ++ word)
  else ((if is_nonempty temp_chunk then out ++ [py_strip temp_chunk] else out),
        word).

Definition pack_words (out : list str) (s : str) : list str * str :=
  fold_left word_step (py_split_ws s) (out, []).

(** One iteration of [for sentence in sentences]; the state is
    [(chunks, current_chunk)]. *)
Definition sentence_step (st : list str * str) (sentence : str)
  : list str * str :=
  let '(chunks, current_chunk) := st in
  let test_chunk :=
    if is_nonempty current_chunk then current_chunk ++ sentence ++ dot_space
    else sentence ++ dot_space in
  if length test_chunk <=? max_chunk_size then (chunks, test_chunk)
  else if is_nonempty current_chunk
  then (chunks ++ [py_strip current_chunk], sentence ++ dot_space)
  else if max_chunk_size <? length sentence
  then let '(chunks', temp_chunk) := pack_words chunks sentence in
       (chunks', if is_nonempty temp_chunk then temp_chunk ++ dot_space
                 else current_chunk)
  else (chunks, sentence ++ dot_space).

Definition sentence_pass (text : str) : list str :=
  let '(chunks, current_chunk) :=
    fold_left sentence_step (py_split_dot_space text) ([], []) in
  if is_nonempty current_chunk then chunks ++ [py_strip current_chunk]
  else chunks.

(** One iteration of the re-scan [for chunk in chunks]. *)
Definition final_step (final_chunks : list str) (chunk : str) : list str :=
  if length chunk <=? max_chunk_size then final_chunks ++ [chunk]
  else let '(out, temp_chunk) := pack_words final_chunks chunk in
       if is_nonempty temp_chunk then out ++ [py_strip temp_chunk] else out.

Definition split_text_into_chunks (text : str) : list str :=
  fold_left final_step (sentence_pass text) [].

End Chunker.

Example split_ex1 :
  split_text_into_chunks 10 (lit "Hello world. This is a test")
  = [lit "Hello"; lit "world."; lit "This is a"; lit "test."].
Proof. vm_compute. reflexivity. Qed.

(** ** Lemmas on the string primitives *)

Definition no_space (s : str) : bool := forallb (fun c => negb (is_space c)) s.

(** The characters that are neither whitespace nor ['.'], in order. *)
Definition content_char (c : N) : bool := negb (is_space c) && negb (c =? dot)%N.
Definition visible (s : str) : str := filter content_char s.


Lemma is_nonempty_false s : is_nonempty s = false -> s = [].
Proof. destruct s; [reflexivity | discriminate]. Qed.




Lemma no_space_rev s : no_space (rev s) = no_space s.
Proof.
  unfold no_space; induction s as [|c s IH]; simpl; [reflexivity|].
  rewrite forallb_app, IH; simpl.
  rewrite andb_true_r, andb_comm; reflexivity.
Qed.


Lemma split_ws_aux_words s cur :
  no_space cur = true ->
  Forall (fun w => w <> [] /\ no_space w = true) (split_ws_aux s cur).
Proof.
  revert cur; induction s as [|c s IH]; intros cur Hcur; simpl.
  - destruct cur as [|x cur']; simpl; [constructor|].
    constructor; [|constructor]. split.
    + intros H; apply app_eq_nil in H as [_ H]; discriminate.
    + rewrite <- (no_space_rev (x :: cur')) in Hcur; exact Hcur.
  - destruct (is_space c) eqn:Hc.
    + destruct cur as [|x cur']; simpl; [apply IH; reflexivity|].
      constructor; [split|apply IH; reflexivity].
      * intros H; apply app_eq_nil in H as [_ H]; discriminate.
      * rewrite <- (no_space_rev (x :: cur')) in Hcur; exact Hcur.
    + apply IH; simpl; rewrite Hc, Hcur; reflexivity.
Qed.

Lemma visible_app a b : visible (a ++ b) = visible a ++ visible b.
Proof. apply filter_app. Qed.

Lemma visible_cons_space c s : is_space c = true -> visible (c :: s) = visible s.
Proof.
  intros Hc; unfold visible; cbn [filter].
  unfold content_char at 1; rewrite Hc; reflexivity.
Qed.

Lemma visible_drop_spaces s : visible (drop_spaces s) = visible s.
Proof.
  induction s as [|c s IH]; cbn [drop_spaces]; [reflexivity|].
  destruct (is_space c) eqn:Hc; [|reflexivity].
  rewrite visible_cons_space by exact Hc; exact IH.
Qed.

Lemma visible_rev s : visible (rev s) = rev (visible s).
Proof.
  induction s as [|c s IH]; simpl; [reflexivity|].
  rewrite visible_app, IH; unfold visible; simpl.
  destruct (content_char c); simpl; [reflexivity | apply app_nil_r].
Qed.

Lemma visible_py_strip s : visible (py_strip s) = visible s.
Proof.
  unfold py_strip.
  rewrite visible_rev, visible_drop_spaces, visible_rev, visible_drop_spaces.
  apply rev_involutive.
Qed.

Lemma visible_dot_space : visible dot_space = [].
Proof. reflexivity. Qed.

Lemma visible_space_cons w : visible (space :: w) = visible w.
Proof. reflexivity. Qed.

Lemma visible_concat_app l x :
  visible (concat (l ++ [x])) = visible (concat l) ++ visible x.
Proof. rewrite concat_app, visible_app; simpl; rewrite app_nil_r; reflexivity. Qed.

Lemma visible_split_ws_aux s cur :
  visible (concat (split_ws_aux s cur)) = visible (rev cur ++ s).
Proof.
  revert cur; induction s as [|c s IH]; intros cur; cbn [split_ws_aux].
  - destruct cur as [|x cur']; cbn [is_nonempty concat]; [reflexivity|].
    rewrite !app_nil_r; reflexivity.
  - destruct (is_space c) eqn:Hc.
    + assert (Hv : visible (c :: s) = visible s)
        by (apply visible_cons_space; exact Hc).
      destruct cur as [|x cur']; cbn [is_nonempty concat].
      * rewrite IH; cbn [rev app]; symmetry; exact Hv.
      * rewrite visible_app, IH; cbn [rev app].
        rewrite (visible_app (rev cur' ++ [x]) (c :: s)), Hv; reflexivity.
    + rewrite IH; cbn [rev]; rewrite <- app_assoc; reflexivity.
Qed.

Lemma visible_split_dot_space_aux n s cur :
  length s <= n ->
  visible (concat (split_dot_space_aux s cur)) = visible (rev cur ++ s).
Proof.
  revert s cur; induction n as [|n IH]; intros s cur Hn.
  - destruct s; [cbn; rewrite !app_nil_r; reflexivity | cbn in Hn; lia].
  - destruct s as [|c s]; [cbn; rewrite !app_nil_r; reflexivity|].
    cbn [length] in Hn; cbn [split_dot_space_aux].
    destruct (c =? dot)%N eqn:Hc.
    + apply N.eqb_eq in Hc; subst c.
      destruct s as [|d s'].
      * rewrite IH by (cbn; lia); cbn [rev]; rewrite <- app_assoc; reflexivity.
      * destruct (d =? space)%N eqn:Hd.
        -- apply N.eqb_eq in Hd; subst d; cbn [concat].
           rewrite visible_app, IH by (cbn [length] in Hn; lia); cbn [rev app].
           rewrite visible_app; reflexivity.
        -- rewrite IH by (cbn [length] in Hn |- *; lia); cbn [rev].
           rewrite <- app_assoc; reflexivity.
    + rewrite IH by lia; cbn [rev]; rewrite <- app_assoc; reflexivity.
Qed.

Lemma visible_split_dot_space s :
  visible (concat (py_split_dot_space s)) = visible s.
Proof.
  unfold py_split_dot_space.
  rewrite (visible_split_dot_space_aux (length s)) by lia; reflexivity.
Qed.

(** ** The words of a string *)

(** The words [s.split()] of a string are left as they are by splitting
    at a whitespace character, by [strip], and by the fragments of
    [split('. ')] each taken back with its ['. ']. *)

Lemma drop_spaces_split s :
  exists sp, s = sp ++ drop_spaces s /\ forallb is_space sp = true.
Proof.
  induction s as [|c s [sp [E H]]]; [exists []; split; reflexivity|].
  cbn [drop_spaces]; destruct (is_space c) eqn:Hc.
  - exists (c :: sp); split; [cbn; rewrite <- E; reflexivity|].
    cbn; rewrite Hc, H; reflexivity.
  - exists []; split; reflexivity.
Qed.
























(** ** Invariants of the chunker loops *)

Section ChunkerProofs.

Variable max_chunk_size : nat.








Lemma word_step_visible out t w out' t' :
  word_step max_chunk_size (out, t) w = (out', t') ->
  visible (concat out') ++ visible t' = visible (concat out) ++ visible t ++ visible w.
Proof.
  unfold word_step; intros E.
  destruct (length (t ++ space :: w) <=? max_chunk_size).
  - injection E as <- <-.
    destruct (is_nonempty t); rewrite visible_app; [rewrite visible_space_cons|];
      reflexivity.
  - injection E as <- <-.
    destruct (is_nonempty t) eqn:Hne.
    + rewrite visible_concat_app, visible_py_strip, <- app_assoc; reflexivity.
    + apply is_nonempty_false in Hne; subst t; reflexivity.
Qed.

Lemma fold_word_step_visible ws :
  forall o t o' t',
  fold_left (word_step max_chunk_size) ws (o, t) = (o', t') ->
  visible (concat o') ++ visible t'
  = visible (concat o) ++ visible t ++ visible (concat ws).
Proof.
  induction ws as [|w ws IH]; intros o t o' t' E.
  - cbn in E; injection E as <- <-; cbn; rewrite app_nil_r; reflexivity.
  - cbn [fold_left] in E.
    destruct (word_step max_chunk_size (o, t) w) as [o1 t1] eqn:E1.
    rewrite (IH o1 t1 o' t' E), app_assoc, (word_step_visible o t w o1 t1 E1).
    cbn [concat]; rewrite visible_app, !app_assoc; reflexivity.
Qed.

Lemma pack_words_visible out s out' t' :
  pack_words max_chunk_size out s = (out', t') ->
  visible (concat out') ++ visible t' = visible (concat out) ++ visible s.
Proof.
  unfold pack_words, py_split_ws; intros E.
  rewrite (fold_word_step_visible _ out [] out' t' E), visible_split_ws_aux.
  reflexivity.
Qed.

Lemma sentence_step_visible ch cur s ch' cur' :
  sentence_step max_chunk_size (ch, cur) s = (ch', cur') ->
  visible (concat ch') ++ visible cur'
  = visible (concat ch) ++ visible cur ++ visible s.
Proof.
  unfold sentence_step; intros E; cbv beta iota zeta in E.
  match type of E with
  | context [?x <=? max_chunk_size] => destruct (x <=? max_chunk_size)
  end.
  - injection E as <- <-.
    destruct (is_nonempty cur) eqn:Hne.
    + rewrite !visible_app, visible_dot_space, app_nil_r; reflexivity.
    + apply is_nonempty_false in Hne; subst cur.
      rewrite visible_app, visible_dot_space, app_nil_r; reflexivity.
  - destruct (is_nonempty cur) eqn:Hne.
    + injection E as <- <-.
      rewrite visible_concat_app, visible_py_strip, visible_app,
        visible_dot_space, app_nil_r, <- app_assoc; reflexivity.
    + apply is_nonempty_false in Hne; subst cur.
      destruct (max_chunk_size <? length s).
      * destruct (pack_words max_chunk_size ch s) as [o t] eqn:P.
        apply pack_words_visible in P.
        injection E as <- <-.
        destruct (is_nonempty t) eqn:Ht.
        -- rewrite visible_app, visible_dot_space, app_nil_r, P; reflexivity.
        -- apply is_nonempty_false in Ht; subst t; exact P.
      * injection E as <- <-.
        rewrite visible_app, visible_dot_space, app_nil_r; reflexivity.
Qed.

Lemma fold_sentence_step_visible ss :
  forall ch cur ch' cur',
  fold_left (sentence_step max_chunk_size) ss (ch, cur) = (ch', cur') ->
  visible (concat ch') ++ visible cur'
  = visible (concat ch) ++ visible cur ++ visible (concat ss).
Proof.
  induction ss as [|x ss IH]; intros ch cur ch' cur' E.
  - cbn in E; injection E as <- <-; cbn; rewrite app_nil_r; reflexivity.
  - cbn [fold_left] in E.
    destruct (sentence_step max_chunk_size (ch, cur) x) as [ch1 cur1] eqn:E1.
    rewrite (IH ch1 cur1 ch' cur' E), app_assoc,
      (sentence_step_visible ch cur x ch1 cur1 E1).
    cbn [concat]; rewrite visible_app, !app_assoc; reflexivity.
Qed.

Lemma sentence_pass_visible text :
  visible (concat (sentence_pass max_chunk_size text)) = visible text.
Proof.
  unfold sentence_pass.
  destruct (fold_left (sentence_step max_chunk_size) (py_split_dot_space text)
              ([], [])) as [ch cur] eqn:E.
  apply fold_sentence_step_visible in E; cbv beta iota.
  destruct (is_nonempty cur) eqn:Hne.
  - rewrite visible_concat_app, visible_py_strip, E.
    exact (visible_split_dot_space text).
  - apply is_nonempty_false in Hne; subst cur.
    change (visible (@nil N)) with (@nil N) in E; rewrite app_nil_r in E.
    rewrite E; exact (visible_split_dot_space text).
Qed.

Lemma final_step_visible f c :
  visible (concat (final_step max_chunk_size f c)) = visible (concat f) ++ visible c.
Proof.
  unfold final_step.
  destruct (length c <=? max_chunk_size); [apply visible_concat_app|].
  destruct (pack_words max_chunk_size f c) as [o t] eqn:P.
  apply pack_words_visible in P; cbv beta iota.
  destruct (is_nonempty t) eqn:Ht.
  - rewrite visible_concat_app, visible_py_strip; exact P.
  - apply is_nonempty_false in Ht; subst t.
    change (visible (@nil N)) with (@nil N) in P; rewrite app_nil_r in P; exact P.
Qed.

Lemma fold_final_step_visible l :
  forall f, visible (concat (fold_left (final_step max_chunk_size) l f))
            = visible (concat f) ++ visible (concat l).
Proof.
  induction l as [|c l IH]; intros f; cbn [fold_left].
  - cbn; rewrite app_nil_r; reflexivity.
  - rewrite IH, final_step_visible; cbn [concat].
    rewrite visible_app, app_assoc; reflexivity.
Qed.

(** *** The chunks keep the words of the text *)


















(** Apart from whitespace and ['.'], the chunker loses, adds and reorders no
    character: with whitespace and periods removed, the concatenated chunks
    equal the input. *)
Lemma split_text_into_chunks_visible text :
  visible (concat (split_text_into_chunks max_chunk_size text)) = visible text.
Proof.
  unfold split_text_into_chunks.
  rewrite fold_final_step_visible; exact (sentence_pass_visible text).
Qed.

End ChunkerProofs.

(** Python's [sep.join(chunks)]. *)
Definition py_join (sep : str) (l : list str) : str :=
  match l with
  | [] => []
  | x :: l' => x ++ concat (map (fun y => sep ++ y) l')
  end.

Definition newline : N := 10%N.

(** Whitespace is not kept: the newline of ["a\nb cc"] is found in no chunk
    (the chunk ["a b"] carries a space where the input had it), and joining
    the chunks with a space does not give the input back. *)
Lemma split_text_into_chunks_drops_newline :
  split_text_into_chunks 5 (lit "a" ++ [newline] ++ lit "b cc")
  = [lit "a b"; lit "cc."]
  /\ count_occ N.eq_dec (lit "a" ++ [newline] ++ lit "b cc") newline = 1
  /\ count_occ N.eq_dec
       (concat (split_text_into_chunks 5 (lit "a" ++ [newline] ++ lit "b cc")))
       newline = 0
  /\ str_eqb (py_join (lit " ")
       (split_text_into_chunks 5 (lit "a" ++ [newline] ++ lit "b cc")))
       (lit "a" ++ [newline] ++ lit "b cc") = false.
Proof. vm_compute. repeat split. Qed.

(** C2: the chunks do not carry the input's characters.  The text ["ab"]
    is chunked to the one chunk ["ab."], whatever [max_chunk_size]: a ['.']
    that the input does not have, the ['. '] appended to the last fragment.
    And with [max_chunk_size = 3] the text ["    .     . b"] is chunked to
    ["b."]: two fragments of spaces only, longer than the limit, leave
    [current_chunk] empty, so the ['. '] after each is never put back and
    one of the input's two periods is lost. *)
Theorem split_text_into_chunks_changes_periods n :
  split_text_into_chunks n (lit "ab") = [lit "ab."]
  /\ count_occ N.eq_dec (lit "ab") dot = 0
  /\ split_text_into_chunks 3 (lit "    .     . b") = [lit "b."]
  /\ count_occ N.eq_dec (lit "    .     . b") dot = 2
  /\ count_occ N.eq_dec (concat (split_text_into_chunks 3 (lit "    .     . b"))) dot = 1.
Proof.
  assert (E : split_text_into_chunks n (lit "ab") = [lit "ab."])
    by (destruct n as [|[|[|[|n]]]]; reflexivity).
  rewrite E; repeat split; vm_compute; reflexivity.
Qed.

(** C9: on the empty text the chunker returns the one chunk ["."], whatever
    [max_chunk_size]: the ['. '] appended to the last fragment survives as
    a chunk. *)
Theorem split_text_into_chunks_empty n :
  split_text_into_chunks n [] = [lit "."].
Proof. destruct n as [|[|n]]; reflexivity. Qed.



(** ** Effects: exceptions and the log of service requests *)

(** The exceptions the modelled code can raise. *)
Inductive exn :=
| ServiceError          (* a request to a hosted service raised *)
| AttributeError        (* [.get] called on a value that is not a dict *)
| JSONDecodeError.      (* [json.loads] rejected its input *)

Inductive result (A : Type) :=
| Ok (a : A)
| Err (e : exn).
Arguments Ok {A} a.
Arguments Err {A} e.

(** A computation threads the list of inputs sent to the hosted service so
    far and may raise. *)
Definition M (A : Type) := list str -> result A * list str.

Definition ret {A} (a : A) : M A := fun log => (Ok a, log).
Definition raise {A} (e : exn) : M A := fun log => (Err e, log).
Definition bind {A B} (m : M A) (k : A -> M B) : M B :=
  fun log => match m log with
             | (Ok a, log') => k a log'
             | (Err e, log') => (Err e, log')
             end.
(** [try: m except Exception as e: h e] *)
Definition catch {A} (m : M A) (h : exn -> M A) : M A :=
  fun log => match m log with
             | (Ok a, log') => (Ok a, log')
             | (Err e, log') => h e log'
             end.

Notation "x <- m ;; k" := (bind m (fun x => k))
  (at level 61, m at next level, right associativity).

Fixpoint mapM {A B} (f : A -> M B) (l : list A) : M (list B) :=
  match l with
  | [] => ret []
  | x :: l' => y <- f x ;; ys <- mapM f l' ;; ret (y :: ys)
  end.

(** ** Vectors: [np.mean(embeddings, axis=0)] *)

Definition vadd (u v : list Q) : list Q :=
  map (fun '(a, b) => (a + b)%Q) (combine u v).

(** Column means of a non-empty list of equally long vectors (numpy returns
    NaN on an empty list; [get_embedding] never calls it on one). *)
Definition np_mean_axis0 (vs : list (list Q)) : list Q :=
  match vs with
  | [] => []
  | v :: _ =>
      map (fun x => (x / inject_Z (Z.of_nat (length vs)))%Q)
        (fold_right vadd (repeat 0%Q (length v)) vs)
  end.

Definition embedding_dimension : nat := 1536.

(** ** [get_embedding] *)

Section Embedding.

(** [openai_client.embeddings.create(input=..., model="text-embedding-ada-002")]:
    the returned [data[0].embedding], or [None] when the request raises. *)
Variable embeddings_api : str -> option (list Q).

(** One request; the input is logged whether or not the request fails. *)
Definition embeddings_create (input : str) : M (list Q) :=
  fun log => match embeddings_api input with
             | Some v => (Ok v, log ++ [input])
             | None => (Err ServiceError, log ++ [input])
             end.

Definition max_chunk_size : nat := 4000.

Definition get_embedding_body (text : str) : M (list Q) :=
  if length text <=? max_chunk_size
  then embeddings_create text
  else
    let chunks := split_text_into_chunks max_chunk_size text in
    embeddings <- mapM embeddings_create chunks ;;
    ret (match embeddings with
         | [] => []
         | _ => np_mean_axis0 embeddings
         end).

(** The [except Exception] handler shows the error and returns [[]]. *)
Definition get_embedding (text : str) : M (list Q) :=
  catch (get_embedding_body text) (fun _ => ret []).

(** The inputs [get_embedding] sends, in order, when no request fails. *)
Definition embedding_requests (text : str) : list str :=
  if length text <=? max_chunk_size then [text]
  else split_text_into_chunks max_chunk_size text.

End Embedding.

Example get_embedding_ex1 :
  get_embedding (fun t => Some [inject_Z (Z.of_nat (length t)); 1%Q])
    (lit "abc") [] = (Ok [3%Q; 1%Q], [lit "abc"]).
Proof. reflexivity. Qed.

(** ** Lemmas on requests and means *)

Lemma mapM_create_ok api cs log :
  Forall (fun c => exists v, api c = Some v) cs ->
  exists vs, Forall2 (fun c v => api c = Some v) cs vs
             /\ mapM (embeddings_create api) cs log = (Ok vs, log ++ cs).
Proof.
  intros H; revert log; induction H as [|c cs [v Hv] Hcs IH]; intros log.
  - exists []; split; [constructor | cbn; rewrite app_nil_r; reflexivity].
  - destruct (IH (log ++ [c])) as [vs [Hvs E]].
    exists (v :: vs); split; [constructor; assumption|].
    cbn [mapM]; unfold bind at 1; unfold embeddings_create at 1; rewrite Hv.
    cbv beta iota; unfold bind; rewrite E.
    rewrite <- app_assoc; reflexivity.
Qed.

Lemma mapM_create_fail api pre c post log :
  Forall (fun p => exists v, api p = Some v) pre -> api c = None ->
  mapM (embeddings_create api) (pre ++ c :: post) log
  = (Err ServiceError, log ++ pre ++ [c]).
Proof.
  intros H Hc; revert log; induction H as [|p pre [v Hv] Hpre IH]; intros log.
  - cbn [app mapM]; unfold bind, embeddings_create; rewrite Hc; reflexivity.
  - cbn [app mapM]; unfold bind at 1; unfold embeddings_create at 1; rewrite Hv.
    cbv beta iota; unfold bind at 1; rewrite IH, <- app_assoc; reflexivity.
Qed.

Lemma length_vadd u v : length (vadd u v) = Nat.min (length u) (length v).
Proof. unfold vadd; rewrite length_map, length_combine; reflexivity. Qed.

Lemma length_fold_vadd d vs :
  Forall (fun v => length v = d) vs ->
  length (fold_right vadd (repeat 0%Q d) vs) = d.
Proof.
  induction 1 as [|v vs Hv Hvs IH]; cbn [fold_right].
  - apply repeat_length.
  - rewrite length_vadd, Hv, IH; apply Nat.min_id.
Qed.

Lemma nth_vadd i u v :
  length u = length v -> i < length u ->
  nth i (vadd u v) 0%Q = (nth i u 0%Q + nth i v 0%Q)%Q.
Proof.
  intros Hl Hi; unfold vadd.
  set (f := fun p : Q * Q => let '(a, b) := p in (a + b)%Q).
  rewrite (nth_indep (map f (combine u v)) 0%Q (f (0%Q, 0%Q)))
    by (rewrite length_map, length_combine; lia).
  rewrite map_nth, combine_nth by exact Hl; reflexivity.
Qed.

Lemma nth_fold_vadd d i vs :
  Forall (fun v => length v = d) vs -> i < d ->
  nth i (fold_right vadd (repeat 0%Q d) vs) 0%Q
  = fold_right Qplus 0%Q (map (fun v => nth i v 0%Q) vs).
Proof.
  intros H Hi; induction H as [|v vs Hv Hvs IH]; cbn [fold_right map].
  - apply nth_repeat.
  - rewrite nth_vadd, IH; [reflexivity | |].
    + rewrite Hv, length_fold_vadd; auto.
    + lia.
Qed.

Lemma np_mean_axis0_spec d vs :
  vs <> [] -> Forall (fun v => length v = d) vs ->
  length (np_mean_axis0 vs) = d /\
  forall i, i < d ->
    nth i (np_mean_axis0 vs) 0%Q
    = (fold_right Qplus 0%Q (map (fun v => nth i v 0%Q) vs)
       / inject_Z (Z.of_nat (length vs)))%Q.
Proof.
  intros Hne H; destruct vs as [|v vs']; [contradiction|].
  assert (Hv : length v = d) by (inversion H; assumption).
  unfold np_mean_axis0; rewrite Hv; split.
  - rewrite length_map; apply length_fold_vadd; exact H.
  - intros i Hi.
    set (f := fun x => (x / inject_Z (Z.of_nat (length (v :: vs'))))%Q).
    rewrite (nth_indep _ _ (f 0%Q))
      by (rewrite length_map, length_fold_vadd; auto).
    rewrite map_nth; unfold f; rewrite nth_fold_vadd by assumption.
    reflexivity.
Qed.

(** C3 (as amended): with an embedding service that answers every request
    with a vector of [embedding_dimension] entries, a text of at most 4000
    characters is sent in one request whose vector is returned; a longer
    text is sent as the chunks of [split_text_into_chunks 4000], one request
    per chunk in order, and the result is the element-wise mean of the chunk
    vectors, of length [embedding_dimension], when there is at least one
    chunk; when the chunker returns no chunk (a text of whitespace only) no
    request is sent and the empty vector is returned. *)
Theorem get_embedding_requests_mean api :
  (forall t, exists v, api t = Some v /\ length v = embedding_dimension) ->
  forall text,
  (length text <= max_chunk_size ->
     exists v, api text = Some v
               /\ get_embedding api text [] = (Ok v, [text])
               /\ length v = embedding_dimension) /\
  (max_chunk_size < length text ->
     exists vs,
       Forall2 (fun c v => api c = Some v)
         (split_text_into_chunks max_chunk_size text) vs /\
       (split_text_into_chunks max_chunk_size text = [] ->
          get_embedding api text [] = (Ok [], [])) /\
       (split_text_into_chunks max_chunk_size text <> [] ->
          get_embedding api text []
            = (Ok (np_mean_axis0 vs), split_text_into_chunks max_chunk_size text)
          /\ length (np_mean_axis0 vs) = embedding_dimension
          /\ forall i, i < embedding_dimension ->
               nth i (np_mean_axis0 vs) 0%Q
               = (fold_right Qplus 0%Q (map (fun v => nth i v 0%Q) vs)
                  / inject_Z (Z.of_nat (length vs)))%Q)).
Proof.
  intros Hapi text; split.
  - intros Hle; destruct (Hapi text) as [v [Hv Hd]].
    exists v; split; [exact Hv|]; split; [|exact Hd].
    unfold get_embedding, catch, get_embedding_body.
    apply Nat.leb_le in Hle; rewrite Hle.
    unfold embeddings_create; rewrite Hv; reflexivity.
  - intros Hgt.
    set (chunks := split_text_into_chunks max_chunk_size text).
    destruct (mapM_create_ok api chunks [])
      as [vs [Hvs E]].
    { apply Forall_forall; intros c _; destruct (Hapi c) as [v [Hv _]]; eauto. }
    exists vs; split; [exact Hvs|].
    assert (Hbody : get_embedding api text []
                    = (Ok (match vs with [] => [] | _ => np_mean_axis0 vs end),
                       chunks)).
    { unfold get_embedding, catch, get_embedding_body.
      apply Nat.leb_gt in Hgt; rewrite Hgt; fold chunks.
      unfold bind; rewrite E; reflexivity. }
    split.
    + intros Hnil; rewrite Hbody; fold chunks in Hnil; rewrite Hnil in Hvs |- *.
      inversion Hvs; reflexivity.
    + intros Hne; fold chunks in Hne.
      assert (Hvne : vs <> []).
      { intros ->; apply Hne, length_zero_iff_nil.
        exact (Forall2_length Hvs). }
      assert (Hlen : Forall (fun v => length v = embedding_dimension) vs).
      { clear -Hvs Hapi; induction Hvs as [|c v cs vs' Hcv _ IH]; constructor; auto.
        destruct (Hapi c) as [v' [Hv' Hd]]; congruence. }
      destruct (np_mean_axis0_spec embedding_dimension vs Hvne Hlen) as [Hl Hnth].
      split; [|split; assumption].
      rewrite Hbody; destruct vs; [contradiction | reflexivity].
Qed.

(** C8 (as amended): when a request fails, the requests before it having
    succeeded, no further request is sent and [get_embedding] returns the
    empty vector as an ordinary result: no error reaches the caller and no
    mean of the vectors already received is returned. *)
Theorem get_embedding_failure_returns_empty api text pre c post :
  embedding_requests text = pre ++ c :: post ->
  Forall (fun p => exists v, api p = Some v) pre ->
  api c = None ->
  get_embedding api text [] = (Ok [], pre ++ [c]).
Proof.
  intros Hreq Hpre Hc.
  unfold embedding_requests in Hreq; unfold get_embedding, catch, get_embedding_body.
  destruct (length text <=? max_chunk_size).
  - destruct pre as [|p pre].
    + injection Hreq as -> _; unfold embeddings_create; rewrite Hc; reflexivity.
    + injection Hreq as _ Hreq; destruct pre; discriminate.
  - rewrite Hreq; unfold bind at 1.
    rewrite mapM_create_fail by assumption; reflexivity.
Qed.

(** The service of the examples: every request answers the zero vector. *)
Definition zero_embeddings_api (_ : str) : option (list Q) :=
  Some (repeat 0%Q embedding_dimension).

Lemma get_embedding_requests_mean_witness :
  (length (lit "abc") <= max_chunk_size ->
     exists v, zero_embeddings_api (lit "abc") = Some v
               /\ get_embedding zero_embeddings_api (lit "abc") []
                  = (Ok v, [lit "abc"])
               /\ length v = embedding_dimension) /\
  (max_chunk_size < length (lit "abc") ->
     exists vs,
       Forall2 (fun c v => zero_embeddings_api c = Some v)
         (split_text_into_chunks max_chunk_size (lit "abc")) vs /\
       (split_text_into_chunks max_chunk_size (lit "abc") = [] ->
          get_embedding zero_embeddings_api (lit "abc") [] = (Ok [], [])) /\
       (split_text_into_chunks max_chunk_size (lit "abc") <> [] ->
          get_embedding zero_embeddings_api (lit "abc") []
            = (Ok (np_mean_axis0 vs),
               split_text_into_chunks max_chunk_size (lit "abc"))
          /\ length (np_mean_axis0 vs) = embedding_dimension
          /\ forall i, i < embedding_dimension ->
               nth i (np_mean_axis0 vs) 0%Q
               = (fold_right Qplus 0%Q (map (fun v => nth i v 0%Q) vs)
                  / inject_Z (Z.of_nat (length vs)))%Q)).
Proof.
  apply (get_embedding_requests_mean zero_embeddings_api).
  intros t; exists (repeat 0%Q embedding_dimension); split;
    [reflexivity | apply repeat_length].
Defined.

(** C3: a text of 4001 spaces is longer than the threshold, the chunker
    returns no chunk, no request is sent and the vector returned is empty,
    not of length 1536. *)
Lemma get_embedding_blank_text_empty :
  split_text_into_chunks max_chunk_size (repeat space 4001) = []
  /\ get_embedding zero_embeddings_api (repeat space 4001) [] = (Ok [], [])
  /\ length (repeat space 4001) = 4001.
Proof. split; [vm_compute; reflexivity|]. split; [vm_compute; reflexivity|].
  apply repeat_length. Qed.

(** A text of three sentences of 2000 characters each: longer than the
    threshold, it is sent as three chunks. *)
Definition three_sentences : str :=
  repeat 97%N 2000 ++ dot_space ++ repeat 98%N 2000 ++ dot_space
  ++ repeat 99%N 2000.

(** A service that fails on the chunk of the second sentence only. *)
Definition second_sentence_fails_api (input : str) : option (list Q) :=
  match input with
  | 98%N :: _ => None
  | _ => Some (repeat 0%Q embedding_dimension)
  end.

Lemma get_embedding_failure_returns_empty_witness :
  embedding_requests three_sentences
  = [repeat 97%N 2000 ++ [dot]; repeat 98%N 2000 ++ [dot];
     repeat 99%N 2000 ++ [dot]]
  /\ get_embedding second_sentence_fails_api three_sentences []
     = (Ok [], [repeat 97%N 2000 ++ [dot]] ++ [repeat 98%N 2000 ++ [dot]]).
Proof.
  split; [vm_compute; reflexivity|].
  apply (get_embedding_failure_returns_empty second_sentence_fails_api
           three_sentences [repeat 97%N 2000 ++ [dot]]
           (repeat 98%N 2000 ++ [dot]) [repeat 99%N 2000 ++ [dot]]).
  - vm_compute; reflexivity.
  - constructor; [|constructor].
    exists (repeat 0%Q embedding_dimension); reflexivity.
  - reflexivity.
Defined.

(** C8: a failed request does not surface as an error: [get_embedding]
    answers [Ok []]. *)
Lemma get_embedding_failure_is_not_error :
  get_embedding (fun _ => None) (lit "abc") [] = (Ok [], [lit "abc"]).
Proof. reflexivity. Qed.

(** ** Parsed JSON values and dicts *)

Inductive json :=
| JNull
| JBool (b : bool)
| JNum (q : Q)
| JStr (s : str)
| JArr (l : list json)
| JObj (d : list (str * json)).

(** A Python dict with string keys, in insertion order, keys distinct. *)
Definition dict := list (str * json).

Fixpoint dict_lookup (k : str) (d : dict) : option json :=
  match d with
  | [] => None
  | (k', v) :: d' => if str_eqb k k' then Some v else dict_lookup k d'
  end.

(** [d.get(k, default)] on a dict. *)
Definition dict_get (d : dict) (k : str) (default : json) : json :=
  match dict_lookup k d with Some v => v | None => default end.

(** [v.get(k, default)] on a parsed value: only a dict has [.get]. *)
Definition py_get (v : json) (k : str) (default : json) : result json :=
  match v with
  | JObj d => Ok (dict_get d k default)
  | _ => Err AttributeError
  end.

(** Python truthiness, as used by [if req]. *)
Definition py_truthy (v : json) : bool :=
  match v with
  | JNull => false
  | JBool b => b
  | JNum q => negb (Qeq_bool q 0)
  | JStr s => is_nonempty s
  | JArr l => match l with [] => false | _ => true end
  | JObj d => match d with [] => false | _ => true end
  end.

Definition rbind {A B} (m : result A) (k : A -> result B) : result B :=
  match m with Ok a => k a | Err e => Err e end.

(** ** The keys of the analysis schema (the prompt of [analyze_rfp_with_gpt]) *)

Definition key_core_overview : str := [49; 95; 54645; 49900; 44060; 50836]%N.   (* 1_핵심개요 *)
Definition key_background : str := [48176; 44221; 47785; 51201]%N.             (* 배경목적 *)
Definition key_expected_outcome : str := [44592; 45824; 49457; 44284]%N.       (* 기대성과 *)
Definition key_schedule : str := [50; 95; 51068; 51221; 47560; 51068; 49828; 53668]%N. (* 2_일정마일스톤 *)
Definition key_qa_deadline : str := [51656; 51032; 51025; 45813; 47560; 44048]%N. (* 질의응답마감 *)
Definition key_budget : str := [51; 95; 50696; 49328; 44032; 44201]%N.         (* 3_예산가격 *)
Definition key_estimated_budget : str := [52628; 51221; 50696; 49328]%N.       (* 추정예산 *)
Definition key_evaluation : str := [52; 95; 54217; 44032; 49440; 51221; 44592; 51456]%N. (* 4_평가선정기준 *)
Definition key_scoring : str := [51221; 47049; 51221; 49457; 48176; 51216]%N.  (* 정량정성배점 *)
Definition key_bonus_penalty : str := [44032; 51216; 44048; 51216; 50836; 44148]%N. (* 가점감점요건 *)
Definition key_disqualification : str := [53448; 46973; 54596; 49688; 50836; 44148]%N. (* 탈락필수요건 *)
Definition key_requirements : str := [53; 95; 50836; 44396; 49324; 54637]%N.   (* 5_요구사항 *)
Definition key_functional : str := [44592; 45733; 50836; 44396]%N.             (* 기능요구 *)
Definition key_non_functional : str := [48708; 44592; 45733; 50836; 44396]%N.  (* 비기능요구 *)
Definition key_interface : str := [51064; 53552; 54168; 51060; 49828; 50672; 44228]%N. (* 인터페이스연계 *)
Definition key_data : str := [45936; 51060; 53552]%N.                          (* 데이터 *)
Definition key_compatibility : str := [54840; 54872; 49457; 54364; 51456]%N.   (* 호환성표준 *)
Definition key_security : str := [54; 95; 48372; 50504; 51456; 48277]%N.       (* 6_보안준법 *)
Definition key_service_level : str := [55; 95; 49436; 48708; 49828; 49688; 51456; 50868; 50689]%N. (* 7_서비스수준운영 *)
Definition key_quality : str := [56; 95; 54408; 51656; 44160; 49688; 51064; 49688]%N. (* 8_품질검수인수 *)
Definition key_contract : str := [57; 95; 44228; 50557; 48277; 47924]%N.       (* 9_계약법무 *)
Definition key_supplier : str := [49; 48; 95; 44277; 44553; 49324; 51088; 44201; 50669; 47049]%N. (* 10_공급사자격역량 *)
Definition key_submission : str := [49; 49; 95; 51228; 52636; 54805; 49885; 51648; 49884]%N. (* 11_제출형식지시 *)
Definition key_solution_mapping : str := [44592; 49696; 49556; 47336; 49496; 47588; 54609]%N. (* 기술솔루션매핑 *)
Definition key_keywords : str := [54645; 49900; 53412; 50892; 46300]%N.        (* 핵심키워드 *)

(** The top-level keys the prompt asks the model for. *)
Definition schema_keys : list str :=
  [key_core_overview; key_schedule; key_budget; key_evaluation; key_requirements;
   key_security; key_service_level; key_quality; key_contract; key_supplier;
   key_submission; key_solution_mapping; key_keywords].

(** ** Field extraction of [store_rfp_in_search] *)

Record flat_fields := mk_flat {
  document_title : str;
  budget_range : json;
  submission_deadline : json;
  technical_requirements : list json;
  evaluation_criteria : dict;
  project_type : json
}.

Section Flatten.

(** [str(v)], used by the f-string of the title. *)
Variable py_str : json -> str.

Definition rfp_document_fallback : str := lit "RFP Document".

(** [f"{bg} {eo}".strip()] *)
Definition project_overview_of (bg eo : json) : str :=
  py_strip (py_str bg ++ space :: py_str eo).

(** The title when no [pdf_title] is given. *)
Definition derived_title (rfp_analysis : dict) : result str :=
  let project_overview :=
    match dict_lookup key_core_overview rfp_analysis with
    | Some core_overview =>
        rbind (py_get core_overview key_background (JStr [])) (fun bg =>
        rbind (py_get core_overview key_expected_outcome (JStr [])) (fun eo =>
        Ok (project_overview_of bg eo)))
    | None => Ok []
    end in
  rbind project_overview (fun po =>
    Ok (if is_nonempty po then firstn 100 po else rfp_document_fallback)).

(** [document_title]: [pdf_title] first, then the overview, then the
    literal fallback. *)
Definition title_of (rfp_analysis : dict) (pdf_title : option str) : result str :=
  match pdf_title with
  | Some t => if is_nonempty t then Ok t else derived_title rfp_analysis
  | None => derived_title rfp_analysis
  end.

Definition budget_range_of (rfp_analysis : dict) : result json :=
  match dict_lookup key_budget rfp_analysis with
  | Some budget_info => py_get budget_info key_estimated_budget (JStr [])
  | None => Ok (JStr [])
  end.

Definition submission_deadline_of (rfp_analysis : dict) : result json :=
  match dict_lookup key_schedule rfp_analysis with
  | Some schedule_info => py_get schedule_info key_qa_deadline (JStr [])
  | None => Ok (JStr [])
  end.

Definition technical_requirements_of (rfp_analysis : dict) : result (list json) :=
  match dict_lookup key_requirements rfp_analysis with
  | Some requirements_info =>
      rbind (py_get requirements_info key_functional (JStr [])) (fun r1 =>
      rbind (py_get requirements_info key_non_functional (JStr [])) (fun r2 =>
      rbind (py_get requirements_info key_interface (JStr [])) (fun r3 =>
      rbind (py_get requirements_info key_data (JStr [])) (fun r4 =>
      rbind (py_get requirements_info key_compatibility (JStr [])) (fun r5 =>
      Ok (filter py_truthy [r1; r2; r3; r4; r5]))))))
  | None => Ok []
  end.

Definition evaluation_criteria_of (rfp_analysis : dict) : result dict :=
  match dict_lookup key_evaluation rfp_analysis with
  | Some eval_info =>
      rbind (py_get eval_info key_scoring (JStr [])) (fun e1 =>
      rbind (py_get eval_info key_bonus_penalty (JStr [])) (fun e2 =>
      rbind (py_get eval_info key_disqualification (JStr [])) (fun e3 =>
      Ok [(key_scoring, e1); (key_bonus_penalty, e2); (key_disqualification, e3)])))
  | None => Ok []
  end.

(** The body of [store_rfp_in_search] between the embedding and the upload. *)
Definition flatten (rfp_analysis : dict) (pdf_title : option str)
  : result flat_fields :=
  rbind (title_of rfp_analysis pdf_title) (fun document_title =>
  rbind (budget_range_of rfp_analysis) (fun budget_range =>
  rbind (submission_deadline_of rfp_analysis) (fun submission_deadline =>
  rbind (technical_requirements_of rfp_analysis) (fun technical_requirements =>
  rbind (evaluation_criteria_of rfp_analysis) (fun evaluation_criteria =>
  Ok (mk_flat document_title budget_range submission_deadline
        technical_requirements evaluation_criteria
        (dict_get rfp_analysis (lit "project_type") (JStr [])))))))).

End Flatten.

(** The stored record. *)
Module Doc.
Record t := mk {
  id : str;
  title : str;
  content : str;
  requirements : str;
  project_type : json;
  budget_range : json;
  submission_deadline : json;
  evaluation_criteria : str;
  created_date : str;
  content_vector : list Q
}.
End Doc.

Section Store.

Variable embeddings_api : str -> option (list Q).
Variable py_str : json -> str.
(** [json.dumps(v, ensure_ascii=False)] *)
Variable json_dumps : json -> str.
(** [search_client.upload_documents([document])]: the number of results, or
    [None] when the call raises. *)
Variable upload_documents : Doc.t -> option nat.
(** [f"rfp_{datetime.now().strftime(...)}"] and
    [datetime.now().isoformat() + "Z"] at the time of the call. *)
Variables (now_id now_iso : str).

Definition build_document (rfp_content : str) (content_vector : list Q)
  (f : flat_fields) : Doc.t :=
  Doc.mk now_id (document_title f) rfp_content
    (json_dumps (JArr (technical_requirements f)))
    (project_type f) (budget_range f) (submission_deadline f)
    (json_dumps (JObj (evaluation_criteria f)))
    now_iso content_vector.

Definition lift {A} (r : result A) : M A := fun log => (r, log).

Definition upload (d : Doc.t) : M nat :=
  fun log => match upload_documents d with
             | Some n => (Ok n, log)
             | None => (Err ServiceError, log)
             end.

Definition store_rfp_in_search (rfp_analysis : dict) (rfp_content : str)
  (pdf_title : option str) : M bool :=
  catch
    (content_vector <- get_embedding embeddings_api rfp_content ;;
     f <- lift (flatten py_str rfp_analysis pdf_title) ;;
     n <- upload (build_document rfp_content content_vector f) ;;
     ret (0 <? n))
    (fun _ => ret false).

End Store.

(** [str(v)] on string values, the only values the examples pass to it. *)
Definition str_of_json_string (v : json) : str :=
  match v with JStr s => s | _ => [] end.

(** ** Lemmas on the field extraction *)

Lemma rbind_ok {A B} (m : result A) (k : A -> result B) b :
  rbind m k = Ok b -> exists a, m = Ok a /\ k a = Ok b.
Proof. destruct m as [a|e]; cbn; [eauto | discriminate]. Qed.

Lemma flatten_ok_inv py_str a t f :
  flatten py_str a t = Ok f ->
  title_of py_str a t = Ok (document_title f)
  /\ budget_range_of a = Ok (budget_range f)
  /\ submission_deadline_of a = Ok (submission_deadline f)
  /\ technical_requirements_of a = Ok (technical_requirements f)
  /\ evaluation_criteria_of a = Ok (evaluation_criteria f)
  /\ project_type f = dict_get a (lit "project_type") (JStr []).
Proof.
  unfold flatten; intros H.
  apply rbind_ok in H as [x1 [H1 H]]; apply rbind_ok in H as [x2 [H2 H]].
  apply rbind_ok in H as [x3 [H3 H]]; apply rbind_ok in H as [x4 [H4 H]].
  apply rbind_ok in H as [x5 [H5 H]].
  injection H as <-; cbn; auto 7.
Qed.

Lemma flatten_of_parts py_str a t x1 x2 x3 x4 x5 :
  title_of py_str a t = Ok x1 -> budget_range_of a = Ok x2 ->
  submission_deadline_of a = Ok x3 -> technical_requirements_of a = Ok x4 ->
  evaluation_criteria_of a = Ok x5 ->
  flatten py_str a t
  = Ok (mk_flat x1 x2 x3 x4 x5 (dict_get a (lit "project_type") (JStr []))).
Proof.
  intros H1 H2 H3 H4 H5; unfold flatten.
  rewrite H1; cbn; rewrite H2; cbn; rewrite H3; cbn; rewrite H4; cbn.
  rewrite H5; reflexivity.
Qed.

Lemma dict_lookup_in k a v : dict_lookup k a = Some v -> In k (map fst a).
Proof.
  induction a as [|[k' v'] a IH]; cbn; [discriminate|].
  unfold str_eqb; destruct (list_eq_dec N.eq_dec k k') as [->|_]; auto.
Qed.

(** A category the code reads with [.get] is a dict. *)
Definition is_dict_at (a : dict) (k : str) : Prop :=
  forall v, dict_lookup k a = Some v -> exists d, v = JObj d.

Lemma derived_title_ok py_str a :
  is_dict_at a key_core_overview -> exists x, derived_title py_str a = Ok x.
Proof.
  intros Hd; unfold derived_title.
  destruct (dict_lookup key_core_overview a) as [v|] eqn:Hv; [|eexists; reflexivity].
  destruct (Hd v Hv) as [d ->]; eexists; reflexivity.
Qed.

Lemma parts_ok py_str a t :
  is_dict_at a key_core_overview -> is_dict_at a key_schedule ->
  is_dict_at a key_budget -> is_dict_at a key_requirements ->
  (exists x, title_of py_str a t = Ok x) /\ (exists x, budget_range_of a = Ok x)
  /\ (exists x, submission_deadline_of a = Ok x)
  /\ (exists x, technical_requirements_of a = Ok x).
Proof.
  intros H1 H2 H3 H5; split; [|split; [|split]].
  - unfold title_of; destruct t as [s|]; [destruct (is_nonempty s)|];
      [eexists; reflexivity | apply derived_title_ok; exact H1
      | apply derived_title_ok; exact H1].
  - unfold budget_range_of; destruct (dict_lookup key_budget a) as [v|] eqn:Hv;
      [destruct (H3 v Hv) as [d ->]|]; eexists; reflexivity.
  - unfold submission_deadline_of;
      destruct (dict_lookup key_schedule a) as [v|] eqn:Hv;
      [destruct (H2 v Hv) as [d ->]|]; eexists; reflexivity.
  - unfold technical_requirements_of;
      destruct (dict_lookup key_requirements a) as [v|] eqn:Hv;
      [destruct (H5 v Hv) as [d ->]|]; eexists; reflexivity.
Qed.

(** C4: the stored [requirements] are, in this order, the functional,
    non-functional, interface/integration, data and compatibility/standards
    sub-fields of category 5 ([""] when missing), falsy values filtered out,
    serialized with [json.dumps]; without category 5 the list is empty. *)
Theorem flatten_requirements_five_fields py_str a t f :
  flatten py_str a t = Ok f ->
  (forall ri, dict_lookup key_requirements a = Some (JObj ri) ->
     technical_requirements f
     = filter py_truthy
         [dict_get ri key_functional (JStr []);
          dict_get ri key_non_functional (JStr []);
          dict_get ri key_interface (JStr []);
          dict_get ri key_data (JStr []);
          dict_get ri key_compatibility (JStr [])]) /\
  (dict_lookup key_requirements a = None -> technical_requirements f = []) /\
  (forall json_dumps now_id now_iso content vec,
     Doc.requirements (build_document json_dumps now_id now_iso content vec f)
     = json_dumps (JArr (technical_requirements f))).
Proof.
  intros H; destruct (flatten_ok_inv _ _ _ _ H) as [_ [_ [_ [H4 _]]]].
  unfold technical_requirements_of in H4; split; [|split].
  - intros ri Hri; rewrite Hri in H4; cbn in H4; injection H4 as <-; reflexivity.
  - intros Hn; rewrite Hn in H4; injection H4 as <-; reflexivity.
  - reflexivity.
Qed.

(** The end-to-end input of the spec: category 5 holds only the
    non-functional sub-field ["load ≥ 1000 rps"]. *)
Definition load_rps : str := lit "load " ++ [8805%N] ++ lit " 1000 rps".

Definition analysis_load_only : dict :=
  [(key_requirements, JObj [(key_non_functional, JStr load_rps)])].

Lemma flatten_requirements_five_fields_witness :
  (forall ri, dict_lookup key_requirements analysis_load_only = Some (JObj ri) ->
     technical_requirements
       (mk_flat rfp_document_fallback (JStr []) (JStr []) [JStr load_rps] [] (JStr []))
     = filter py_truthy
         [dict_get ri key_functional (JStr []);
          dict_get ri key_non_functional (JStr []);
          dict_get ri key_interface (JStr []);
          dict_get ri key_data (JStr []);
          dict_get ri key_compatibility (JStr [])]) /\
  (dict_lookup key_requirements analysis_load_only = None ->
     technical_requirements
       (mk_flat rfp_document_fallback (JStr []) (JStr []) [JStr load_rps] [] (JStr []))
     = []) /\
  (forall json_dumps now_id now_iso content vec,
     Doc.requirements (build_document json_dumps now_id now_iso content vec
       (mk_flat rfp_document_fallback (JStr []) (JStr []) [JStr load_rps] [] (JStr [])))
     = json_dumps (JArr [JStr load_rps])).
Proof.
  apply (flatten_requirements_five_fields str_of_json_string analysis_load_only None).
  vm_compute; reflexivity.
Defined.

(** C5 (as amended): when categories 1, 2, 3 and 5 are dicts wherever
    present, an analysis without category 4 is flattened without failure
    and [evaluation_criteria] is the empty dict [{}] (stored as
    [json.dumps({})]); the three fixed keys, each defaulting to [""], are
    produced only when category 4 is present. *)
Theorem flatten_evaluation_criteria py_str a t :
  is_dict_at a key_core_overview -> is_dict_at a key_schedule ->
  is_dict_at a key_budget -> is_dict_at a key_requirements ->
  (dict_lookup key_evaluation a = None ->
     exists f, flatten py_str a t = Ok f /\ evaluation_criteria f = []
       /\ forall json_dumps now_id now_iso content vec,
            Doc.evaluation_criteria
              (build_document json_dumps now_id now_iso content vec f)
            = json_dumps (JObj [])) /\
  (forall ei, dict_lookup key_evaluation a = Some (JObj ei) ->
     exists f, flatten py_str a t = Ok f
       /\ evaluation_criteria f
          = [(key_scoring, dict_get ei key_scoring (JStr []));
             (key_bonus_penalty, dict_get ei key_bonus_penalty (JStr []));
             (key_disqualification, dict_get ei key_disqualification (JStr []))]).
Proof.
  intros H1 H2 H3 H5.
  destruct (parts_ok py_str a t H1 H2 H3 H5)
    as [[x1 E1] [[x2 E2] [[x3 E3] [x4 E4]]]].
  split.
  - intros Hn.
    assert (E5 : evaluation_criteria_of a = Ok [])
      by (unfold evaluation_criteria_of; rewrite Hn; reflexivity).
    eexists; split; [exact (flatten_of_parts _ _ _ _ _ _ _ _ E1 E2 E3 E4 E5)|].
    split; reflexivity.
  - intros ei Hei.
    assert (E5 : evaluation_criteria_of a
                 = Ok [(key_scoring, dict_get ei key_scoring (JStr []));
                       (key_bonus_penalty, dict_get ei key_bonus_penalty (JStr []));
                       (key_disqualification,
                        dict_get ei key_disqualification (JStr []))])
      by (unfold evaluation_criteria_of; rewrite Hei; reflexivity).
    eexists; split; [exact (flatten_of_parts _ _ _ _ _ _ _ _ E1 E2 E3 E4 E5)|].
    reflexivity.
Qed.

Lemma is_dict_at_absent a k : dict_lookup k a = None -> is_dict_at a k.
Proof. intros H v Hv; rewrite H in Hv; discriminate. Qed.

Lemma flatten_evaluation_criteria_witness :
  (dict_lookup key_evaluation [] = None ->
     exists f, flatten str_of_json_string [] None = Ok f
       /\ evaluation_criteria f = []
       /\ forall json_dumps now_id now_iso content vec,
            Doc.evaluation_criteria
              (build_document json_dumps now_id now_iso content vec f)
            = json_dumps (JObj [])) /\
  (forall ei, dict_lookup key_evaluation [] = Some (JObj ei) ->
     exists f, flatten str_of_json_string [] None = Ok f
       /\ evaluation_criteria f
          = [(key_scoring, dict_get ei key_scoring (JStr []));
             (key_bonus_penalty, dict_get ei key_bonus_penalty (JStr []));
             (key_disqualification, dict_get ei key_disqualification (JStr []))]).
Proof.
  apply (flatten_evaluation_criteria str_of_json_string [] None);
    apply is_dict_at_absent; reflexivity.
Defined.

(** C5: an analysis without category 4 (here the empty analysis) gives
    [evaluation_criteria = {}], not three keys bound to [""]. *)
Lemma flatten_no_evaluation_is_empty_dict :
  flatten str_of_json_string [] None
  = Ok (mk_flat rfp_document_fallback (JStr []) (JStr []) [] [] (JStr [])).
Proof. vm_compute; reflexivity. Qed.

(** The extractor's title counts as given when it is a non-empty string
    ([if pdf_title:]). *)
Definition title_absent (pdf_title : option str) : Prop :=
  pdf_title = None \/ pdf_title = Some [].

(** C6: the title is the extractor's title when one is given; otherwise the
    overview built from the background and outcome fields of category 1,
    cut to 100 characters, when it is not empty; otherwise ["RFP Document"]. *)
Theorem flatten_title_precedence py_str a t f :
  flatten py_str a t = Ok f ->
  (forall s, t = Some s -> s <> [] -> document_title f = s) /\
  (title_absent t ->
     (forall core, dict_lookup key_core_overview a = Some (JObj core) ->
        project_overview_of py_str (dict_get core key_background (JStr []))
          (dict_get core key_expected_outcome (JStr [])) <> [] ->
        document_title f
        = firstn 100 (project_overview_of py_str
                        (dict_get core key_background (JStr []))
                        (dict_get core key_expected_outcome (JStr [])))) /\
     (forall core, dict_lookup key_core_overview a = Some (JObj core) ->
        project_overview_of py_str (dict_get core key_background (JStr []))
          (dict_get core key_expected_outcome (JStr [])) = [] ->
        document_title f = rfp_document_fallback) /\
     (dict_lookup key_core_overview a = None ->
        document_title f = rfp_document_fallback)).
Proof.
  intros H; destruct (flatten_ok_inv _ _ _ _ H) as [Ht _].
  unfold title_of in Ht; split.
  - intros s -> Hs; destruct s as [|c s]; [contradiction|].
    injection Ht as <-; reflexivity.
  - intros Habs.
    assert (Hd : derived_title py_str a = Ok (document_title f))
      by (destruct Habs as [-> | ->]; exact Ht).
    clear Ht; unfold derived_title in Hd; split; [|split].
    + intros core Hc Hne; rewrite Hc in Hd; cbn in Hd.
      destruct (project_overview_of py_str (dict_get core key_background (JStr []))
                  (dict_get core key_expected_outcome (JStr []))) as [|x po];
        [contradiction|].
      injection Hd as <-; reflexivity.
    + intros core Hc He; rewrite Hc in Hd; cbn in Hd; rewrite He in Hd.
      injection Hd as <-; reflexivity.
    + intros Hn; rewrite Hn in Hd; injection Hd as <-; reflexivity.
Qed.

Definition analysis_with_overview : dict :=
  [(key_core_overview,
    JObj [(key_background, JStr (lit "Portal renewal"));
          (key_expected_outcome, JStr (lit "faster service"))])].

Lemma flatten_title_precedence_witness :
  let f := mk_flat (lit "Portal renewal faster service") (JStr []) (JStr [])
             [] [] (JStr []) in
  (forall s, @None str = Some s -> s <> [] -> document_title f = s) /\
  (title_absent None ->
     (forall core, dict_lookup key_core_overview analysis_with_overview
                   = Some (JObj core) ->
        project_overview_of str_of_json_string
          (dict_get core key_background (JStr []))
          (dict_get core key_expected_outcome (JStr [])) <> [] ->
        document_title f
        = firstn 100 (project_overview_of str_of_json_string
                        (dict_get core key_background (JStr []))
                        (dict_get core key_expected_outcome (JStr [])))) /\
     (forall core, dict_lookup key_core_overview analysis_with_overview
                   = Some (JObj core) ->
        project_overview_of str_of_json_string
          (dict_get core key_background (JStr []))
          (dict_get core key_expected_outcome (JStr [])) = [] ->
        document_title f = rfp_document_fallback) /\
     (dict_lookup key_core_overview analysis_with_overview = None ->
        document_title f = rfp_document_fallback)).
Proof.
  intros f.
  apply (flatten_title_precedence str_of_json_string analysis_with_overview None).
  vm_compute; reflexivity.
Defined.

(** C10: when every top-level key of the analysis is one of the schema's
    keys (none of which is ["project_type"]), the stored [project_type] is
    the empty string. *)
Theorem flatten_project_type_empty py_str a t f :
  Forall (fun kv => In (fst kv) schema_keys) a ->
  flatten py_str a t = Ok f ->
  project_type f = JStr []
  /\ forall json_dumps now_id now_iso content vec,
       Doc.project_type (build_document json_dumps now_id now_iso content vec f)
       = JStr [].
Proof.
  intros Hkeys H; destruct (flatten_ok_inv _ _ _ _ H) as [_ [_ [_ [_ [_ Hp]]]]].
  assert (Hn : dict_lookup (lit "project_type") a = None).
  { destruct (dict_lookup (lit "project_type") a) as [v|] eqn:Hv; [|reflexivity].
    apply dict_lookup_in, in_map_iff in Hv as [[k v'] [Hk Hin]]; cbn in Hk; subst k.
    rewrite Forall_forall in Hkeys; specialize (Hkeys _ Hin); cbn in Hkeys.
    exfalso; vm_compute in Hkeys; intuition discriminate. }
  unfold dict_get in Hp; rewrite Hn in Hp; split; [exact Hp|].
  intros; exact Hp.
Qed.

Lemma flatten_project_type_empty_witness :
  project_type (mk_flat rfp_document_fallback (JStr []) (JStr [])
                  [JStr load_rps] [] (JStr [])) = JStr []
  /\ forall json_dumps now_id now_iso content vec,
       Doc.project_type (build_document json_dumps now_id now_iso content vec
         (mk_flat rfp_document_fallback (JStr []) (JStr [])
            [JStr load_rps] [] (JStr []))) = JStr [].
Proof.
  apply (flatten_project_type_empty str_of_json_string analysis_load_only None).
  - repeat constructor; cbn; tauto.
  - vm_compute; reflexivity.
Defined.

(** ** Response parsing of [analyze_rfp_with_gpt] *)

Definition lbrace : N := 123%N.
Definition rbrace : N := 125%N.

Fixpoint last_index_of (c : N) (s : str) : option nat :=
  match s with
  | [] => None
  | x :: s' =>
      match last_index_of c s' with
      | Some j => Some (S j)
      | None => if (x =? c)%N then Some 0 else None
      end
  end.

(** [re.search(r'\{.*\}', content, re.DOTALL)]: the leftmost position where
    the pattern matches is a ['{'] followed later by a ['}']; the greedy
    [.*] runs to the last ['}']. *)
Fixpoint re_search_braces (s : str) : option str :=
  match s with
  | [] => None
  | c :: s' =>
      if (c =? lbrace)%N
      then match last_index_of rbrace s' with
           | Some j => Some (c :: firstn (S j) s')
           | None => re_search_braces s'
           end
      else re_search_braces s'
  end.

Section Analyze.

(** [chat.completions.create(...)] on the fixed analysis prompt built from
    the RFP text: the message content, or [None] when the call raises. *)
Variable chat_completion : str -> option str.
(** [json.loads], [None] when it raises. *)
Variable json_loads : str -> option json.

Definition parse_response (content : str) : result json :=
  match re_search_braces content with
  | Some block =>
      match json_loads block with
      | Some v => Ok v
      | None => Err JSONDecodeError
      end
  | None => Ok (JObj [])     (* st.error(...); return {} *)
  end.

(** The [except Exception] handler shows the error and returns [{}]. *)
Definition analyze_rfp_with_gpt (rfp_content : str) : result json :=
  match
    match chat_completion rfp_content with
    | Some content => parse_response content
    | None => Err ServiceError
    end
  with
  | Ok v => Ok v
  | Err _ => Ok (JObj [])
  end.

End Analyze.

Lemma last_index_of_none c s : last_index_of c s = None -> ~ In c s.
Proof.
  induction s as [|x s IH]; cbn; [auto|].
  destruct (last_index_of c s); [discriminate|].
  destruct (x =? c)%N eqn:Hx; [discriminate|].
  intros _ [->|Hin]; [rewrite N.eqb_refl in Hx; discriminate | exact (IH eq_refl Hin)].
Qed.

Lemma last_index_of_some c s j :
  last_index_of c s = Some j ->
  firstn (S j) s = firstn j s ++ [c] /\ ~ In c (skipn (S j) s)
  /\ s = firstn (S j) s ++ skipn (S j) s.
Proof.
  revert j; induction s as [|x s IH]; intros j H; cbn [last_index_of] in H;
    [discriminate|].
  split; [|split; [|symmetry; apply firstn_skipn]].
  - destruct (last_index_of c s) as [j'|] eqn:E.
    + injection H as <-.
      destruct (IH j' eq_refl) as [H1 _].
      rewrite !firstn_cons, H1; reflexivity.
    + destruct (x =? c)%N eqn:Hx; [|discriminate].
      injection H as <-; apply N.eqb_eq in Hx; subst x; reflexivity.
  - destruct (last_index_of c s) as [j'|] eqn:E.
    + injection H as <-.
      destruct (IH j' eq_refl) as [_ [H2 _]].
      rewrite skipn_cons; exact H2.
    + destruct (x =? c)%N eqn:Hx; [|discriminate].
      injection H as <-; rewrite skipn_cons; cbn [skipn].
      exact (last_index_of_none c s E).
Qed.

Lemma last_index_of_last c mid :
  last_index_of c (mid ++ [c]) = Some (length mid).
Proof.
  induction mid as [|x mid IH]; cbn; [rewrite N.eqb_refl; reflexivity|].
  rewrite IH; reflexivity.
Qed.

Lemma re_search_braces_none_if_no_rbrace s :
  ~ In rbrace s -> re_search_braces s = None.
Proof.
  induction s as [|c s IH]; intros Hn; cbn; [reflexivity|].
  assert (Hs : ~ In rbrace s) by (intros H; apply Hn; right; exact H).
  destruct (c =? lbrace)%N; [|exact (IH Hs)].
  destruct (last_index_of rbrace s) as [j|] eqn:E; [|exact (IH Hs)].
  destruct (last_index_of_some _ _ _ E) as [H1 [_ H3]].
  exfalso; apply Hs; rewrite H3, H1.
  apply in_or_app; left; apply in_or_app; right; left; reflexivity.
Qed.

Lemma re_search_braces_spec s b :
  re_search_braces s = Some b ->
  exists pre mid post, s = pre ++ b ++ post /\ b = lbrace :: mid ++ [rbrace]
                       /\ ~ In lbrace pre /\ ~ In rbrace post.
Proof.
  revert b; induction s as [|c s IH]; intros b H; cbn [re_search_braces] in H;
    [discriminate|].
  destruct (c =? lbrace)%N eqn:Hc.
  - apply N.eqb_eq in Hc; subst c.
    destruct (last_index_of rbrace s) as [j|] eqn:E.
    + injection H as <-.
      destruct (last_index_of_some _ _ _ E) as [H1 [H2 H3]].
      exists [], (firstn j s), (skipn (S j) s); split; [|split; [|split]].
      * change (lbrace :: s = [] ++ (lbrace :: firstn (S j) s) ++ skipn (S j) s); cbn [app]; f_equal; exact H3.
      * change (lbrace :: firstn (S j) s = lbrace :: firstn j s ++ [rbrace]); rewrite H1; reflexivity.
      * intros [].
      * exact H2.
    + rewrite re_search_braces_none_if_no_rbrace in H
        by exact (last_index_of_none _ _ E).
      discriminate.
  - destruct (IH b H) as [pre [mid [post [E [Hb [Hpre Hpost]]]]]].
    exists (c :: pre), mid, post; split; [|split; [exact Hb|split; [|exact Hpost]]].
    + rewrite E; reflexivity.
    + intros [->|Hin]; [rewrite N.eqb_refl in Hc; discriminate | exact (Hpre Hin)].
Qed.

Lemma re_search_braces_skip_prose prose s :
  ~ In lbrace prose -> re_search_braces (prose ++ s) = re_search_braces s.
Proof.
  induction prose as [|c prose IH]; intros Hn; [reflexivity|].
  cbn [app re_search_braces].
  destruct (c =? lbrace)%N eqn:Hc.
  - apply N.eqb_eq in Hc; subst c; exfalso; apply Hn; left; reflexivity.
  - apply IH; intros Hin; apply Hn; right; exact Hin.
Qed.

Lemma re_search_braces_object mid :
  re_search_braces (lbrace :: mid ++ [rbrace]) = Some (lbrace :: mid ++ [rbrace]).
Proof.
  cbn [re_search_braces]; rewrite N.eqb_refl, last_index_of_last.
  rewrite firstn_all2; [reflexivity|].
  rewrite length_app; cbn; lia.
Qed.

(** C7 (as amended): the block handed to [json.loads] is the span from the
    first ['{'] to the last ['}'] of the response (the greedy regex), not a
    balanced object; a response made of prose without ['{'] followed by one
    JSON object parses to that object; when there is no block, or the block
    is not valid JSON, the analyzer returns the empty dict [{}] (after an
    error message) instead of failing. *)
Theorem analyze_rfp_with_gpt_parsing chat loads rfp_content response :
  chat rfp_content = Some response ->
  (forall block, re_search_braces response = Some block ->
     (exists pre mid post, response = pre ++ block ++ post
        /\ block = lbrace :: mid ++ [rbrace]
        /\ ~ In lbrace pre /\ ~ In rbrace post) /\
     analyze_rfp_with_gpt chat loads rfp_content
     = match loads block with Some v => Ok v | None => Ok (JObj []) end) /\
  (re_search_braces response = None ->
     analyze_rfp_with_gpt chat loads rfp_content = Ok (JObj [])) /\
  (forall prose mid v,
     response = prose ++ lbrace :: mid ++ [rbrace] -> ~ In lbrace prose ->
     loads (lbrace :: mid ++ [rbrace]) = Some v ->
     analyze_rfp_with_gpt chat loads rfp_content = Ok v).
Proof.
  intros Hchat; unfold analyze_rfp_with_gpt; rewrite Hchat; unfold parse_response.
  split; [|split].
  - intros block Hb; split; [exact (re_search_braces_spec _ _ Hb)|].
    rewrite Hb; destruct (loads block); reflexivity.
  - intros Hn; rewrite Hn; reflexivity.
  - intros prose mid v -> Hprose Hv.
    rewrite re_search_braces_skip_prose by exact Hprose.
    rewrite re_search_braces_object, Hv; reflexivity.
Qed.

(** A [json.loads] that accepts exactly the text ["{}"]. *)
Definition loads_empty_object (s : str) : option json :=
  if str_eqb s (lit "{}") then Some (JObj []) else None.

Definition answer_with_prose (_ : str) : option str := Some (lit "Result: {}").

Lemma analyze_rfp_with_gpt_parsing_witness :
  (forall block, re_search_braces (lit "Result: {}") = Some block ->
     (exists pre mid post, lit "Result: {}" = pre ++ block ++ post
        /\ block = lbrace :: mid ++ [rbrace]
        /\ ~ In lbrace pre /\ ~ In rbrace post) /\
     analyze_rfp_with_gpt answer_with_prose loads_empty_object (lit "rfp")
     = match loads_empty_object block with
       | Some v => Ok v | None => Ok (JObj []) end) /\
  (re_search_braces (lit "Result: {}") = None ->
     analyze_rfp_with_gpt answer_with_prose loads_empty_object (lit "rfp")
     = Ok (JObj [])) /\
  (forall prose mid v,
     lit "Result: {}" = prose ++ lbrace :: mid ++ [rbrace] -> ~ In lbrace prose ->
     loads_empty_object (lbrace :: mid ++ [rbrace]) = Some v ->
     analyze_rfp_with_gpt answer_with_prose loads_empty_object (lit "rfp") = Ok v).
Proof.
  apply (analyze_rfp_with_gpt_parsing answer_with_prose loads_empty_object
           (lit "rfp") (lit "Result: {}")).
  reflexivity.
Defined.

(** C7: a response without any ['{'...'}'] block, and one whose block is
    not valid JSON, both give [Ok {}], not an error; and in ["{} }"] the
    block taken is the whole text, not the balanced ["{}"]. *)
Lemma analyze_rfp_with_gpt_no_block_not_error :
  analyze_rfp_with_gpt (fun _ => Some (lit "no structured block"))
    loads_empty_object (lit "rfp") = Ok (JObj [])
  /\ analyze_rfp_with_gpt (fun _ => Some (lit "{x}"))
       loads_empty_object (lit "rfp") = Ok (JObj [])
  /\ re_search_braces (lit "{} }") = Some (lit "{} }").
Proof. vm_compute; repeat split. Qed.

(** * Further properties of the analyzer *)

(** ** The chunker's chunks are non-empty and stripped *)

(** A string holding some non-whitespace character. *)
Definition has_content (s : str) : bool := existsb (fun c => negb (is_space c)) s.

(** A chunk as [strip] leaves it: non-empty, and stripping it again changes
    nothing. *)
Definition stripped_chunk (c : str) : Prop := c <> [] /\ py_strip c = c.

Lemma drop_spaces_head s :
  drop_spaces s = [] \/ exists c r, drop_spaces s = c :: r /\ is_space c = false.
Proof.
  induction s as [|c s IH]; [left; reflexivity|].
  cbn [drop_spaces]; destruct (is_space c) eqn:Hc; [exact IH|].
  right; exists c, s; split; [reflexivity | exact Hc].
Qed.

Lemma drop_spaces_fix s :
  (s = [] \/ exists c r, s = c :: r /\ is_space c = false) -> drop_spaces s = s.
Proof.
  intros [->|[c [r [-> Hc]]]]; [reflexivity|].
  cbn; rewrite Hc; reflexivity.
Qed.

Lemma drop_spaces_idem s : drop_spaces (drop_spaces s) = drop_spaces s.
Proof. apply drop_spaces_fix, drop_spaces_head. Qed.

(** Stripping trailing whitespace keeps the first character. *)
Lemma rstrip_head a :
  (a = [] \/ exists c r, a = c :: r /\ is_space c = false) ->
  let b := rev (drop_spaces (rev a)) in
  b = [] \/ exists c r, b = c :: r /\ is_space c = false.
Proof.
  intros Ha b.
  destruct (drop_spaces_split (rev a)) as [sp [E _]].
  assert (Ea : a = b ++ rev sp).
  { unfold b; transitivity (rev (rev a)); [symmetry; apply rev_involutive|].
    rewrite E at 1; rewrite rev_app_distr; reflexivity. }
  destruct b as [|x b']; [left; reflexivity|right].
  exists x, b'; split; [reflexivity|].
  destruct Ha as [->|[c [r [Ha Hc]]]]; [discriminate|].
  rewrite Ha in Ea; cbn in Ea; injection Ea as <- _; exact Hc.
Qed.

Lemma py_strip_idem s : py_strip (py_strip s) = py_strip s.
Proof.
  unfold py_strip at 2 3.
  set (a := drop_spaces s).
  assert (Hb := rstrip_head a (drop_spaces_head s)).
  set (b := rev (drop_spaces (rev a))) in Hb |- *.
  unfold py_strip; rewrite (drop_spaces_fix b Hb).
  unfold b; rewrite rev_involutive, drop_spaces_idem; reflexivity.
Qed.

Lemma has_content_app_l a b : has_content a = true -> has_content (a ++ b) = true.
Proof. unfold has_content; rewrite existsb_app; intros ->; reflexivity. Qed.

Lemma has_content_app_r a b : has_content b = true -> has_content (a ++ b) = true.
Proof.
  unfold has_content; rewrite existsb_app; intros ->; apply orb_true_r.
Qed.

Lemma has_content_rev s : has_content (rev s) = has_content s.
Proof.
  unfold has_content; induction s as [|c s IH]; [reflexivity|].
  cbn [rev]; rewrite existsb_app, IH; cbn.
  rewrite orb_false_r, orb_comm; reflexivity.
Qed.

Lemma has_content_drop_spaces s : has_content (drop_spaces s) = has_content s.
Proof.
  induction s as [|c s IH]; [reflexivity|].
  cbn [drop_spaces]; destruct (is_space c) eqn:Hc; [|reflexivity].
  rewrite IH; unfold has_content; cbn; rewrite Hc; reflexivity.
Qed.

Lemma has_content_py_strip s : has_content (py_strip s) = has_content s.
Proof.
  unfold py_strip.
  rewrite has_content_rev, has_content_drop_spaces, has_content_rev,
    has_content_drop_spaces; reflexivity.
Qed.

Lemma stripped_chunk_strip t :
  has_content t = true -> stripped_chunk (py_strip t).
Proof.
  intros Ht; split; [|apply py_strip_idem].
  intros E; rewrite <- has_content_py_strip, E in Ht; discriminate.
Qed.

Lemma has_content_dot_space a : has_content (a ++ dot_space) = true.
Proof. apply has_content_app_r; reflexivity. Qed.

Lemma has_content_word w :
  w <> [] /\ no_space w = true -> has_content w = true.
Proof.
  intros [Hne Hw]; destruct w as [|c w]; [contradiction|].
  unfold no_space in Hw; cbn in Hw; apply andb_prop in Hw as [Hc _].
  unfold has_content; cbn; rewrite Hc; reflexivity.
Qed.

Section ChunkShape.

Variable max_chunk_size : nat.

Definition temp_shape (t : str) : Prop := t = [] \/ has_content t = true.

Lemma word_step_shape out t w out' t' :
  Forall stripped_chunk out -> temp_shape t -> w <> [] /\ no_space w = true ->
  word_step max_chunk_size (out, t) w = (out', t') ->
  Forall stripped_chunk out' /\ temp_shape t'.
Proof.
  intros Hout Ht Hw E; unfold word_step in E.
  assert (Hcw := has_content_word w Hw).
  destruct (length (t ++ space :: w) <=? max_chunk_size).
  - injection E as <- <-; split; [exact Hout|right].
    destruct (is_nonempty t); apply has_content_app_r;
      [exact (has_content_app_r [space] w Hcw) | exact Hcw].
  - injection E as <- <-; split; [|right; exact Hcw].
    destruct (is_nonempty t) eqn:Hne; [|exact Hout].
    apply Forall_app; split; [exact Hout|].
    constructor; [|constructor].
    destruct Ht as [->|Ht]; [discriminate|].
    apply stripped_chunk_strip; exact Ht.
Qed.

Lemma pack_words_shape out s out' t' :
  Forall stripped_chunk out -> pack_words max_chunk_size out s = (out', t') ->
  Forall stripped_chunk out' /\ temp_shape t'.
Proof.
  intros Hout E; unfold pack_words in E.
  assert (Hws := split_ws_aux_words s [] eq_refl).
  change (split_ws_aux s []) with (py_split_ws s) in Hws.
  revert Hws E; generalize (py_split_ws s) as ws; intros ws Hws.
  assert (Ht : temp_shape []) by (left; reflexivity).
  revert out Hout Ht; generalize (@nil N) as t.
  induction Hws as [|w ws Hw Hws IH]; intros t out Hout Ht E.
  - cbn in E; injection E as <- <-; auto.
  - cbn [fold_left] in E.
    destruct (word_step max_chunk_size (out, t) w) as [o1 t1] eqn:E1.
    destruct (word_step_shape out t w o1 t1 Hout Ht Hw E1) as [Ho1 Ht1].
    exact (IH t1 o1 Ho1 Ht1 E).
Qed.

Lemma sentence_step_shape ch cur s ch' cur' :
  Forall stripped_chunk ch -> temp_shape cur ->
  sentence_step max_chunk_size (ch, cur) s = (ch', cur') ->
  Forall stripped_chunk ch' /\ temp_shape cur'.
Proof.
  intros Hch Hcur E; unfold sentence_step in E; cbv beta iota zeta in E.
  match type of E with
  | context [?x <=? max_chunk_size] => destruct (x <=? max_chunk_size)
  end.
  - injection E as <- <-; split; [exact Hch|right].
    destruct (is_nonempty cur); [rewrite app_assoc|]; apply has_content_dot_space.
  - destruct (is_nonempty cur) eqn:Hne.
    + injection E as <- <-; split; [|right; apply has_content_dot_space].
      apply Forall_app; split; [exact Hch|constructor; [|constructor]].
      destruct Hcur as [->|Hcur]; [discriminate|].
      apply stripped_chunk_strip; exact Hcur.
    + destruct (max_chunk_size <? length s).
      * destruct (pack_words max_chunk_size ch s) as [o t] eqn:P.
        destruct (pack_words_shape ch s o t Hch P) as [Ho _].
        injection E as <- <-; split; [exact Ho|].
        destruct (is_nonempty t); [right; apply has_content_dot_space|exact Hcur].
      * injection E as <- <-; split; [exact Hch|right; apply has_content_dot_space].
Qed.

Lemma sentence_pass_shape text :
  Forall stripped_chunk (sentence_pass max_chunk_size text).
Proof.
  unfold sentence_pass.
  assert (H : forall ss ch cur ch' cur',
             Forall stripped_chunk ch -> temp_shape cur ->
             fold_left (sentence_step max_chunk_size) ss (ch, cur) = (ch', cur') ->
             Forall stripped_chunk ch' /\ temp_shape cur').
  { induction ss as [|x ss IH]; intros ch cur ch' cur' Hch Hcur E.
    - cbn in E; injection E as <- <-; auto.
    - cbn [fold_left] in E.
      destruct (sentence_step max_chunk_size (ch, cur) x) as [c1 u1] eqn:E1.
      destruct (sentence_step_shape ch cur x c1 u1 Hch Hcur E1) as [H1 H2].
      exact (IH c1 u1 ch' cur' H1 H2 E). }
  destruct (fold_left (sentence_step max_chunk_size) (py_split_dot_space text)
              ([], [])) as [ch cur] eqn:E.
  destruct (H _ _ _ _ _ (Forall_nil _) (or_introl eq_refl) E) as [Hch Hcur].
  cbv beta iota; destruct (is_nonempty cur) eqn:Hne; [|exact Hch].
  apply Forall_app; split; [exact Hch|constructor; [|constructor]].
  destruct Hcur as [->|Hcur]; [discriminate|].
  apply stripped_chunk_strip; exact Hcur.
Qed.

Lemma final_step_shape f c :
  Forall stripped_chunk f -> stripped_chunk c ->
  Forall stripped_chunk (final_step max_chunk_size f c).
Proof.
  intros Hf Hc; unfold final_step.
  destruct (length c <=? max_chunk_size).
  - apply Forall_app; split; [exact Hf | constructor; [exact Hc | constructor]].
  - destruct (pack_words max_chunk_size f c) as [o t] eqn:P.
    destruct (pack_words_shape f c o t Hf P) as [Ho Ht].
    destruct (is_nonempty t) eqn:Hne; [|exact Ho].
    apply Forall_app; split; [exact Ho|constructor; [|constructor]].
    destruct Ht as [->|Ht]; [discriminate|].
    apply stripped_chunk_strip; exact Ht.
Qed.

(** Every chunk the chunker returns is non-empty and has no leading or
    trailing whitespace ([chunk.strip() == chunk]): no empty or blank input
    is ever sent to the embedding service for a long text. *)
Theorem split_text_into_chunks_stripped text :
  Forall stripped_chunk (split_text_into_chunks max_chunk_size text).
Proof.
  unfold split_text_into_chunks.
  assert (Hs := sentence_pass_shape text).
  assert (Hnil : Forall stripped_chunk (@nil str)) by constructor.
  revert Hnil; generalize (@nil str) as f.
  induction Hs as [|c l Hc Hl IH]; intros f Hf; [exact Hf|].
  cbn [fold_left]; apply IH, final_step_shape; assumption.
Qed.

End ChunkShape.

(** ** [store_rfp_in_search]: what happens around the flattening *)

(** [get_embedding] never lets an exception out. *)
Lemma get_embedding_never_raises api text log :
  exists v, fst (get_embedding api text log) = Ok v.
Proof.
  unfold get_embedding, catch.
  destruct (get_embedding_body api text log) as [[v|e] log']; cbn;
    eexists; reflexivity.
Qed.

(** An embedding service that fails on every request. *)
Definition failing_embeddings_api (_ : str) : option (list Q) := None.

(** With a service that always fails, [get_embedding] attempts one request
    (none when the chunker returns no chunk) and returns [[]]. *)
Lemma get_embedding_failing text log :
  get_embedding failing_embeddings_api text log
  = (Ok [], log ++ firstn 1 (embedding_requests text)).
Proof.
  unfold get_embedding, get_embedding_body, embedding_requests, catch.
  destruct (length text <=? max_chunk_size); [reflexivity|].
  destruct (split_text_into_chunks max_chunk_size text) as [|c cs].
  - cbn; rewrite app_nil_r; reflexivity.
  - pose proof (mapM_create_fail failing_embeddings_api [] c cs log
                  (Forall_nil _) eq_refl) as E.
    cbn [app] in E; unfold bind; rewrite E; reflexivity.
Qed.

(** [len(result) > 0] for the upload of [d]; [False] when the upload raises. *)
Definition upload_status (upload_documents : Doc.t -> option nat) (d : Doc.t) : bool :=
  match upload_documents d with Some n => 0 <? n | None => false end.

(** When the embedding service fails, the RFP is still uploaded: the stored
    document carries the empty vector [[]] as its [content_vector], and at
    most one embedding request was attempted. *)
Theorem store_rfp_in_search_without_embedding py_str json_dumps upload_documents
  now_id now_iso rfp_analysis rfp_content pdf_title f log :
  flatten py_str rfp_analysis pdf_title = Ok f ->
  store_rfp_in_search failing_embeddings_api py_str json_dumps upload_documents
    now_id now_iso rfp_analysis rfp_content pdf_title log
  = (Ok (upload_status upload_documents
           (build_document json_dumps now_id now_iso rfp_content [] f)),
     log ++ firstn 1 (embedding_requests rfp_content)).
Proof.
  intros Hf; unfold store_rfp_in_search, catch, bind at 1.
  rewrite get_embedding_failing; cbv beta iota.
  unfold bind at 1, lift; rewrite Hf; cbv beta iota.
  unfold bind, upload, upload_status.
  destruct (upload_documents _); reflexivity.
Qed.

(** When the fields cannot be read (a category present in the analysis is
    not a dict), [store_rfp_in_search] returns [False] and uploads nothing,
    whatever the search service: but the embedding of the content has
    already been requested. *)
Theorem store_rfp_in_search_flatten_error api py_str json_dumps upload_documents
  now_id now_iso rfp_analysis rfp_content pdf_title e log :
  flatten py_str rfp_analysis pdf_title = Err e ->
  store_rfp_in_search api py_str json_dumps upload_documents
    now_id now_iso rfp_analysis rfp_content pdf_title log
  = (Ok false, snd (get_embedding api rfp_content log)).
Proof.
  intros Hf; unfold store_rfp_in_search, catch, bind at 1.
  destruct (get_embedding_never_raises api rfp_content log) as [v Hv].
  destruct (get_embedding api rfp_content log) as [r log']; cbn in Hv |- *.
  subst r; unfold bind, lift; rewrite Hf; reflexivity.
Qed.

(** ** [search_similar_rfps] *)

Definition key_title : str := lit "title".
Definition key_project_type : str := lit "project_type".
Definition key_requirements_field : str := lit "requirements".
Definition key_evaluation_criteria : str := lit "evaluation_criteria".
Definition key_created_date : str := lit "created_date".
Definition key_score : str := lit "score".
Definition key_search_score : str := lit "@search.score".

(** The fields read with [result[...]], in the order of the dict literal. *)
Definition similar_fields : list str :=
  [key_title; key_project_type; key_requirements_field; key_evaluation_criteria;
   key_created_date].

(** The dict built for one search result; [None] when [result[k]] raises
    [KeyError]. *)
Definition similar_entry (r : dict) : option dict :=
  match dict_lookup key_title r with
  | None => None
  | Some title =>
  match dict_lookup key_project_type r with
  | None => None
  | Some project_type =>
  match dict_lookup key_requirements_field r with
  | None => None
  | Some requirements =>
  match dict_lookup key_evaluation_criteria r with
  | None => None
  | Some evaluation_criteria =>
  match dict_lookup key_created_date r with
  | None => None
  | Some created_date =>
      Some [(key_title, title); (key_project_type, project_type);
            (key_requirements_field, requirements);
            (key_evaluation_criteria, evaluation_criteria);
            (key_created_date, created_date);
            (key_score, dict_get r key_search_score (JNum 0))]
  end end end end end.

(** The loop [for result in results: similar_rfps.append({...})]; [None]
    as soon as one result raises. *)
Fixpoint similar_entries (results : list dict) : option (list dict) :=
  match results with
  | [] => Some []
  | r :: rs =>
      match similar_entry r with
      | None => None
      | Some e =>
          match similar_entries rs with
          | None => None
          | Some es => Some (e :: es)
          end
      end
  end.

Section Search.

Variable embeddings_api : str -> option (list Q).
(** [search_client.search(search_text=q, vector_queries=[VectorizedQuery(
    vector=v, k_nearest_neighbors=limit, fields="content_vector")],
    select=[...], top=limit)], iterated to the end: the result documents, or
    [None] when the call or the iteration raises. *)
Variable search_documents : str -> list Q -> nat -> option (list dict).

Definition search_similar_rfps (current_rfp_keywords : list str) (limit : nat)
  : M (list dict) :=
  fun log =>
    let search_query := py_join (lit " ") current_rfp_keywords in
    match get_embedding embeddings_api search_query log with
    | (Ok query_vector, log') =>
        match query_vector with
        | [] => (Ok [], log')                     (* if not query_vector *)
        | _ =>
            match search_documents search_query query_vector limit with
            | Some results =>
                match similar_entries results with
                | Some similar_rfps => (Ok similar_rfps, log')
                | None => (Ok [], log')           (* except Exception: [] *)
                end
            | None => (Ok [], log')               (* except Exception: [] *)
            end
        end
    | (Err _, log') => (Ok [], log')
    end.

(** The search tab of app.py: [analyzer.search_similar_rfps(search_query)]
    with the text typed by the user, a [str], as the keyword list and the
    default [limit=5]; [" ".join] then iterates over its characters. *)
Definition app_search_tab (search_query : str) : M (list dict) :=
  search_similar_rfps (map (fun c => [c]) search_query) 5.

End Search.

(** The characters of [s], separated by single spaces. *)
Fixpoint spaced (s : str) : str :=
  match s with
  | [] => []
  | [c] => [c]
  | c :: s' => c :: space :: spaced s'
  end.

(** ** [ask_question_about_rfp] *)

(** ["질문 처리 중 오류가 발생했습니다. 다시 시도해주세요."] *)
Definition qa_error_message : str :=
  [51656; 47928; 32; 52376; 47532; 32; 51473; 32; 50724; 47448; 44032; 32;
   48156; 49373; 54664; 49845; 45768; 45796; 46; 32; 45796; 49884; 32; 49884;
   46020; 54644; 51452; 49464; 50836; 46]%N.

Section Ask.

(** [chat.completions.create(...)] on the question prompt: the message
    content, or [None] when the call raises. *)
Variable chat_completion : str -> option str.
(** [json.dumps(rfp_analysis, ensure_ascii=False, indent=2)] *)
Variable json_dumps_indent : json -> str.
(** The literal text of the two f-strings around their fields. *)
Variables (prompt_head prompt_after_content prompt_after_context prompt_tail
           context_head context_tail : str).

(** [analysis_context]: the dumped analysis when [rfp_analysis] is truthy. *)
Definition analysis_context (rfp_analysis : option dict) : str :=
  match rfp_analysis with
  | Some [] => []
  | Some a => context_head ++ json_dumps_indent (JObj a) ++ context_tail
  | None => []
  end.

Definition qa_prompt (question rfp_content : str) (rfp_analysis : option dict) : str :=
  prompt_head ++ firstn 3000 rfp_content ++ prompt_after_content
  ++ analysis_context rfp_analysis ++ prompt_after_context ++ question
  ++ prompt_tail.

Definition ask_question_about_rfp (question rfp_content : str)
  (rfp_analysis : option dict) : str :=
  match chat_completion (qa_prompt question rfp_content rfp_analysis) with
  | Some answer => answer
  | None => qa_error_message
  end.

End Ask.

(** No analysis: [None] or the empty dict. *)
Definition no_analysis (rfp_analysis : option dict) : Prop :=
  match rfp_analysis with None => True | Some a => a = [] end.

(** *** Properties of the search *)

Lemma similar_entry_some r :
  Forall (fun k => dict_lookup k r <> None) similar_fields ->
  exists e, similar_entry r = Some e
    /\ Forall (fun k => dict_lookup k e = dict_lookup k r) similar_fields
    /\ dict_lookup key_score e = Some (dict_get r key_search_score (JNum 0)).
Proof.
  intros H; unfold similar_fields in H.
  inversion H as [|? ? H1 H']; subst; clear H.
  inversion H' as [|? ? H2 H'']; subst; clear H'.
  inversion H'' as [|? ? H3 H''']; subst; clear H''.
  inversion H''' as [|? ? H4 H'''']; subst; clear H'''.
  inversion H'''' as [|? ? H5 _]; subst; clear H''''.
  unfold similar_entry.
  destruct (dict_lookup key_title r) as [v1|] eqn:E1; [|contradiction].
  destruct (dict_lookup key_project_type r) as [v2|] eqn:E2; [|contradiction].
  destruct (dict_lookup key_requirements_field r) as [v3|] eqn:E3; [|contradiction].
  destruct (dict_lookup key_evaluation_criteria r) as [v4|] eqn:E4; [|contradiction].
  destruct (dict_lookup key_created_date r) as [v5|] eqn:E5; [|contradiction].
  eexists; split; [reflexivity|split].
  - unfold similar_fields; repeat constructor; vm_compute; symmetry; assumption.
  - reflexivity.
Qed.

Lemma similar_entry_none r :
  Exists (fun k => dict_lookup k r = None) similar_fields -> similar_entry r = None.
Proof.
  intros H; unfold similar_entry.
  unfold similar_fields in H.
  repeat match goal with
         | H : Exists _ (_ :: _) |- _ => apply Exists_cons in H; destruct H as [H|H]
         | H : Exists _ [] |- _ => apply Exists_nil in H; contradiction
         end; rewrite H; [reflexivity|..];
    repeat match goal with |- context [match ?x with Some _ => _ | None => _ end] =>
             destruct x; [|reflexivity] end; reflexivity.
Qed.

(** When the query has a vector and the index answers, each result that has
    the five selected fields becomes one entry, in the order of the results,
    with those fields copied and ["score"] taken from ["@search.score"]
    (default [0]). If one result lacks one of the fields, the whole answer
    is [[]]: no partial list is returned. *)
Theorem search_similar_rfps_results api search current_rfp_keywords limit log
  query_vector log' results :
  get_embedding api (py_join (lit " ") current_rfp_keywords) log
  = (Ok query_vector, log') ->
  query_vector <> [] ->
  search (py_join (lit " ") current_rfp_keywords) query_vector limit = Some results ->
  (Forall (fun r => Forall (fun k => dict_lookup k r <> None) similar_fields) results ->
   exists es,
     search_similar_rfps api search current_rfp_keywords limit log = (Ok es, log')
     /\ Forall2 (fun r e =>
          Forall (fun k => dict_lookup k e = dict_lookup k r) similar_fields
          /\ dict_lookup key_score e = Some (dict_get r key_search_score (JNum 0)))
          results es) /\
  (Exists (fun r => Exists (fun k => dict_lookup k r = None) similar_fields) results ->
   search_similar_rfps api search current_rfp_keywords limit log = (Ok [], log')).
Proof.
  intros E Hv Hs; unfold search_similar_rfps; cbv zeta; rewrite E.
  destruct query_vector as [|x xs]; [contradiction|]; rewrite Hs.
  split.
  - intros Hall.
    assert (Hes : exists es, similar_entries results = Some es
      /\ Forall2 (fun r e =>
          Forall (fun k => dict_lookup k e = dict_lookup k r) similar_fields
          /\ dict_lookup key_score e = Some (dict_get r key_search_score (JNum 0)))
          results es).
    { clear - Hall; induction Hall as [|r rs Hr Hrs IH]; [exists []; split; constructor|].
      destruct (similar_entry_some r Hr) as [e [Ee [Hk Hsc]]].
      destruct IH as [es [Ees Hes]].
      exists (e :: es); split; [cbn; rewrite Ee, Ees; reflexivity|].
      constructor; [split; assumption | exact Hes]. }
    destruct Hes as [es [Ees Hes]]; exists es; rewrite Ees; split; [reflexivity|exact Hes].
  - intros Hex.
    assert (Hn : similar_entries results = None).
    { clear - Hex; induction Hex as [r rs Hr|r rs Hrs IH]; cbn.
      - rewrite (similar_entry_none r Hr); reflexivity.
      - destruct (similar_entry r); [rewrite IH|]; reflexivity. }
    rewrite Hn; reflexivity.
Qed.

(** A search index that answers with one complete document. *)
Definition one_result_index (_ : str) (_ : list Q) (_ : nat) : option (list dict) :=
  Some [[(key_title, JStr (lit "Cloud RFP")); (key_project_type, JStr []);
         (key_requirements_field, JStr (lit "[]"));
         (key_evaluation_criteria, JStr (lit "{}"));
         (key_created_date, JStr (lit "2024-01-01T00:00:00Z"));
         (key_search_score, JNum 2)]].

Lemma search_similar_rfps_results_witness :
  let kws := [lit "cloud"] in
  let api := fun _ : str => Some [1%Q] in
  (Forall (fun r => Forall (fun k => dict_lookup k r <> None) similar_fields)
     [[(key_title, JStr (lit "Cloud RFP")); (key_project_type, JStr []);
       (key_requirements_field, JStr (lit "[]"));
       (key_evaluation_criteria, JStr (lit "{}"));
       (key_created_date, JStr (lit "2024-01-01T00:00:00Z"));
       (key_search_score, JNum 2)]] ->
   exists es,
     search_similar_rfps api one_result_index kws 5 [] = (Ok es, [lit "cloud"])
     /\ Forall2 (fun r e =>
          Forall (fun k => dict_lookup k e = dict_lookup k r) similar_fields
          /\ dict_lookup key_score e = Some (dict_get r key_search_score (JNum 0)))
          [[(key_title, JStr (lit "Cloud RFP")); (key_project_type, JStr []);
            (key_requirements_field, JStr (lit "[]"));
            (key_evaluation_criteria, JStr (lit "{}"));
            (key_created_date, JStr (lit "2024-01-01T00:00:00Z"));
            (key_search_score, JNum 2)]] es) /\
  (Exists (fun r => Exists (fun k => dict_lookup k r = None) similar_fields)
     [[(key_title, JStr (lit "Cloud RFP")); (key_project_type, JStr []);
       (key_requirements_field, JStr (lit "[]"));
       (key_evaluation_criteria, JStr (lit "{}"));
       (key_created_date, JStr (lit "2024-01-01T00:00:00Z"));
       (key_search_score, JNum 2)]] ->
   search_similar_rfps api one_result_index kws 5 [] = (Ok [], [lit "cloud"])).
Proof.
  intros kws api.
  apply (search_similar_rfps_results api one_result_index kws 5 [] [1%Q]);
    [reflexivity | discriminate | reflexivity].
Defined.

Lemma py_join_space_chars q :
  py_join (lit " ") (map (fun c => [c]) q) = spaced q.
Proof.
  induction q as [|c q IH]; [reflexivity|].
  destruct q as [|d q]; [reflexivity|].
  change (spaced (c :: d :: q)) with (c :: space :: spaced (d :: q)).
  rewrite <- IH; reflexivity.
Qed.

(** The search tab sends the typed text with a space between every two
    characters, to the embedding service and to the index alike: searching
    for ["cloud"] searches for ["c l o u d"]. *)
Theorem app_search_tab_spaced api search search_query log :
  app_search_tab api search search_query log
  = search_similar_rfps api search [spaced search_query] 5 log.
Proof.
  unfold app_search_tab, search_similar_rfps.
  assert (E : py_join (lit " ") [spaced search_query] = spaced search_query)
    by (cbn; apply app_nil_r).
  rewrite py_join_space_chars, E; reflexivity.
Qed.

(** *** Properties of the question answering *)

(** The answer depends only on the question, on the first 3000 characters
    of the RFP text, and on the analysis when it is a non-empty dict: text
    after the 3000th character never reaches the model, and an empty
    analysis is treated as no analysis. *)
Theorem ask_question_about_rfp_inputs chat dumps ph pc pa pt ch ct question
  c1 c2 a1 a2 :
  firstn 3000 c1 = firstn 3000 c2 ->
  (a1 = a2 \/ (no_analysis a1 /\ no_analysis a2)) ->
  ask_question_about_rfp chat dumps ph pc pa pt ch ct question c1 a1
  = ask_question_about_rfp chat dumps ph pc pa pt ch ct question c2 a2.
Proof.
  intros Hc Ha; unfold ask_question_about_rfp, qa_prompt; rewrite Hc.
  assert (E : analysis_context dumps ch ct a1 = analysis_context dumps ch ct a2).
  { destruct Ha as [->|[H1 H2]]; [reflexivity|].
    destruct a1 as [a1|], a2 as [a2|]; cbn in H1, H2; subst; reflexivity. }
  rewrite E; reflexivity.
Qed.

(** A model that echoes its prompt. *)
Definition echo_chat (prompt : str) : option str := Some prompt.

Lemma ask_question_about_rfp_inputs_witness :
  firstn 3000 (repeat 97%N 3000 ++ [98%N]) = firstn 3000 (repeat 97%N 3000 ++ [99%N])
  /\ ask_question_about_rfp echo_chat (fun _ => []) [] [] [] [] [] []
       (lit "budget?") (repeat 97%N 3000 ++ [98%N]) None
     = ask_question_about_rfp echo_chat (fun _ => []) [] [] [] [] [] []
       (lit "budget?") (repeat 97%N 3000 ++ [99%N]) (Some []).
Proof.
  split; [vm_compute; reflexivity|].
  apply ask_question_about_rfp_inputs;
    [vm_compute; reflexivity | right; split; reflexivity].
Defined.

(** ** [analyze_rfp_with_gpt] returns a dict *)

(** Whatever the model answers, the analysis is a dict, provided
    [json.loads] returns a dict for a text that starts with ['{'] (as
    Python's does: such a text is an object or invalid). *)
Theorem analyze_rfp_with_gpt_dict chat loads rfp_content :
  (forall s v, hd_error s = Some lbrace -> loads s = Some v -> exists d, v = JObj d) ->
  exists d, analyze_rfp_with_gpt chat loads rfp_content = Ok (JObj d).
Proof.
  intros Hl; unfold analyze_rfp_with_gpt.
  destruct (chat rfp_content) as [content|]; [|exists []; reflexivity].
  unfold parse_response.
  destruct (re_search_braces content) as [block|] eqn:Eb; [|exists []; reflexivity].
  destruct (loads block) as [v|] eqn:Ev; [|exists []; reflexivity].
  destruct (re_search_braces_spec _ _ Eb) as [pre [mid [post [_ [Hb _]]]]].
  destruct (Hl block v) as [d ->]; [rewrite Hb; reflexivity | exact Ev |].
  exists d; reflexivity.
Qed.

Lemma loads_empty_object_dict s v :
  hd_error s = Some lbrace -> loads_empty_object s = Some v -> exists d, v = JObj d.
Proof.
  intros _; unfold loads_empty_object.
  destruct (str_eqb s (lit "{}")); intros H; [|discriminate].
  injection H as <-; exists []; reflexivity.
Qed.

Lemma analyze_rfp_with_gpt_dict_witness :
  (forall s v, hd_error s = Some lbrace -> loads_empty_object s = Some v ->
     exists d, v = JObj d)
  /\ exists d, analyze_rfp_with_gpt answer_with_prose loads_empty_object (lit "rfp")
               = Ok (JObj d).
Proof.
  split; [exact loads_empty_object_dict|].
  apply analyze_rfp_with_gpt_dict; exact loads_empty_object_dict.
Defined.

(** ** [extract_text_from_file] *)

Definition slash : N := 47%N.

(** [os.path.basename(p)]: what follows the last ['/']. *)
Definition py_basename (p : str) : str :=
  match last_index_of slash p with
  | Some i => skipn (S i) p
  | None => p
  end.

(** [os.path.splitext(p)] (posixpath, [genericpath._splitext]): split at the
    last ['.'] after the last ['/'], unless the name before it is only
    dots. *)
Definition py_splitext (p : str) : str * str :=
  match last_index_of dot p with
  | None => (p, [])
  | Some dotIndex =>
      let filenameIndex :=
        match last_index_of slash p with Some i => S i | None => 0 end in
      if filenameIndex <=? dotIndex
      then if existsb (fun c => negb (c =? dot)%N)
                (firstn (dotIndex - filenameIndex) (skipn filenameIndex p))
           then (firstn dotIndex p, skipn dotIndex p)
           else (p, [])
      else (p, [])
  end.

(** Lower case of an ASCII letter.  [ext.lower() == ".pdf"] (and [".docx"],
    [".txt"]) holds exactly when the extension equals the target up to ASCII
    case: the only other code points that [str.lower] maps into ASCII are
    U+0130 (to ["i"] and a combining dot) and U+212A (to ["k"]), and none
    of the targets contains ["i"] or ["k"]. *)
Definition ascii_lower (c : N) : N :=
  if ((65 <=? c) && (c <=? 90))%N then (c + 32)%N else c.

Definition lower_eqb (s target : str) : bool := str_eqb (map ascii_lower s) target.

Definition ext_pdf : str := lit ".pdf".
Definition ext_docx : str := lit ".docx".
Definition ext_txt : str := lit ".txt".

Definition max_pages : nat := 200.

(** The PDF title: the stripped metadata title when truthy, else the file
    name without extension.  [metadata_title] is [None] when the PDF has no
    metadata or no title, or when reading them raises. *)
Definition pdf_title_of (stem : str) (metadata_title : option str) : str :=
  let pdf_title :=
    match metadata_title with
    | Some t => if is_nonempty t then Some (py_strip t) else None
    | None => None
    end in
  match pdf_title with
  | Some t => if is_nonempty t then t else stem
  | None => stem
  end.

(** One iteration of [for i in range(pages_to_process)]; a page is [None]
    when [extract_text()] raises (the page is skipped with a warning). *)
Definition pdf_page_step (pages : list (option str)) (text : str) (i : nat) : str :=
  match nth i pages None with
  | Some page_text => if is_nonempty page_text then text ++ page_text ++ [newline]
                      else text
  | None => text
  end.

Definition pdf_text (pages : list (option str)) : str :=
  let total_pages := length pages in
  let pages_to_process :=
    if max_pages <? total_pages then max_pages else total_pages in
  fold_left (pdf_page_step pages) (seq 0 pages_to_process) [].

Definition extract_pdf (stem : str) (metadata_title : option str)
  (pages : list (option str)) : option (str * str) :=
  let pdf_title := pdf_title_of stem metadata_title in
  let text := pdf_text pages in
  if has_content text then Some (text, pdf_title) else None.

(** The DOCX title: the stripped first paragraph when non-empty and shorter
    than 100 characters, else the file name without extension. *)
Definition docx_title_of (stem : str) (paragraphs : list str) : str :=
  let docx_title :=
    match paragraphs with
    | p0 :: _ =>
        let first_paragraph := py_strip p0 in
        if is_nonempty first_paragraph && (length first_paragraph <? 100)
        then Some first_paragraph else None
    | [] => None
    end in
  match docx_title with Some t => t | None => stem end.

Definition docx_text (paragraphs : list str) : str :=
  fold_left (fun text p => if has_content p then text ++ p ++ [newline] else text)
    paragraphs [].

Definition extract_docx (stem : str) (paragraphs : list str) : option (str * str) :=
  let docx_title := docx_title_of stem paragraphs in
  let text := docx_text paragraphs in
  if has_content text then Some (text, docx_title) else None.

(** [content.split('\n')[0]] *)
Fixpoint first_line (s : str) : str :=
  match s with
  | [] => []
  | c :: s' => if (c =? newline)%N then [] else c :: first_line s'
  end.

Definition txt_title_of (stem : str) (content : str) : str :=
  let first := py_strip (first_line content) in
  if is_nonempty first && (length first <? 100) then first else stem.

Definition extract_txt (stem : str) (content : str) : option (str * str) :=
  if has_content content then Some (content, txt_title_of stem content) else None.

Section Extract.

(** [os.path.abspath], [os.path.exists], [os.path.isfile], [os.path.getsize]. *)
Variable abspath : str -> str.
Variables path_exists path_isfile : str -> bool.
Variable getsize : str -> nat.
(** [PyPDF2.PdfReader] on the file: the metadata title and the text of each
    page ([None] for a page whose extraction raises); [None] when opening or
    parsing raises. *)
Variable read_pdf : str -> option (option str * list (option str)).
(** [docx.Document(path).paragraphs], as texts; [None] when it raises. *)
Variable read_docx : str -> option (list str).
(** [open(path, 'r', encoding='utf-8').read()]; [None] when it raises. *)
Variable read_txt : str -> option str.

(** The result [(text, title)], or [None] for [(None, None)]. *)
Definition extract_text_from_file (file_path : str) : option (str * str) :=
  let file_path := abspath file_path in
  if negb (path_exists file_path) then None
  else if negb (path_isfile file_path) then None
  else if getsize file_path =? 0 then None
  else
    let file_extension := snd (py_splitext file_path) in
    let stem := fst (py_splitext (py_basename file_path)) in
    if lower_eqb file_extension ext_pdf then
      match read_pdf file_path with
      | Some (metadata_title, pages) => extract_pdf stem metadata_title pages
      | None => None
      end
    else if lower_eqb file_extension ext_docx then
      match read_docx file_path with
      | Some paragraphs => extract_docx stem paragraphs
      | None => None
      end
    else if lower_eqb file_extension ext_txt then
      match read_txt file_path with
      | Some content => extract_txt stem content
      | None => None
      end
    else None.

End Extract.

(** *** Properties of the extraction *)

Lemma has_content_nonempty s : has_content s = true -> s <> [].
Proof. intros H ->; discriminate. Qed.

Lemma pdf_title_of_nonempty stem metadata_title :
  stem <> [] -> pdf_title_of stem metadata_title <> [].
Proof.
  intros Hs; unfold pdf_title_of.
  destruct metadata_title as [t|]; [|exact Hs].
  destruct (is_nonempty t); [|exact Hs].
  destruct (py_strip t) as [|c r]; [exact Hs | discriminate].
Qed.

Lemma docx_title_of_nonempty stem paragraphs :
  stem <> [] -> docx_title_of stem paragraphs <> [].
Proof.
  intros Hs; unfold docx_title_of.
  destruct paragraphs as [|p0 ps]; [exact Hs|].
  destruct (py_strip p0) as [|c r]; [exact Hs|].
  destruct (length (c :: r) <? 100); cbn; [discriminate | exact Hs].
Qed.

Lemma txt_title_of_nonempty stem content :
  stem <> [] -> txt_title_of stem content <> [].
Proof.
  intros Hs; unfold txt_title_of.
  destruct (py_strip (first_line content)) as [|c r]; [exact Hs|].
  destruct (length (c :: r) <? 100); cbn; [discriminate | exact Hs].
Qed.

Lemma extract_text_from_file_some abspath path_exists path_isfile getsize
  read_pdf read_docx read_txt file_path text title :
  extract_text_from_file abspath path_exists path_isfile getsize read_pdf
    read_docx read_txt file_path = Some (text, title) ->
  has_content text = true /\
  (fst (py_splitext (py_basename (abspath file_path))) <> [] -> title <> []).
Proof.
  unfold extract_text_from_file; cbv zeta.
  set (stem := fst (py_splitext (py_basename (abspath file_path)))).
  destruct (path_exists (abspath file_path)); [|discriminate]; cbn [negb].
  destruct (path_isfile (abspath file_path)); [|discriminate]; cbn [negb].
  destruct (getsize (abspath file_path) =? 0); [discriminate|].
  destruct (lower_eqb _ ext_pdf).
  - destruct (read_pdf (abspath file_path)) as [[mt pages]|]; [|discriminate].
    unfold extract_pdf; cbv zeta.
    destruct (has_content (pdf_text pages)) eqn:H; [|discriminate].
    intros E; injection E as <- <-; split; [exact H | apply pdf_title_of_nonempty].
  - destruct (lower_eqb _ ext_docx).
    + destruct (read_docx (abspath file_path)) as [ps|]; [|discriminate].
      unfold extract_docx; cbv zeta.
      destruct (has_content (docx_text ps)) eqn:H; [|discriminate].
      intros E; injection E as <- <-; split; [exact H | apply docx_title_of_nonempty].
    + destruct (lower_eqb _ ext_txt); [|discriminate].
      destruct (read_txt (abspath file_path)) as [c|]; [|discriminate].
      unfold extract_txt.
      destruct (has_content c) eqn:H; [|discriminate].
      intros E; injection E as <- <-; split; [exact H | apply txt_title_of_nonempty].
Qed.

(** Whenever [extract_text_from_file] returns a text, the text is not blank
    ([text.strip()] is non-empty), and the title is non-empty as soon as the
    file name without extension is. *)
Theorem extract_text_from_file_result abspath path_exists path_isfile getsize
  read_pdf read_docx read_txt file_path text title :
  extract_text_from_file abspath path_exists path_isfile getsize read_pdf
    read_docx read_txt file_path = Some (text, title) ->
  py_strip text <> [] /\
  (fst (py_splitext (py_basename (abspath file_path))) <> [] -> title <> []).
Proof.
  intros E; destruct (extract_text_from_file_some _ _ _ _ _ _ _ _ _ _ E) as [H1 H2].
  split; [|exact H2].
  apply has_content_nonempty; rewrite has_content_py_strip; exact H1.
Qed.

(** A file system holding one text file. *)
Definition one_file_exists (_ : str) : bool := true.
Definition one_file_size (_ : str) : nat := 42.
Definition one_txt (_ : str) : option str :=
  Some (lit "Cloud migration RFP" ++ [newline] ++ lit "Scope: ...").
Definition under_tmp (p : str) : str := lit "/tmp/" ++ p.

Lemma extract_text_from_file_result_witness :
  extract_text_from_file under_tmp one_file_exists one_file_exists one_file_size
    (fun _ => None) (fun _ => None) one_txt (lit "temp_rfp.txt")
  = Some (lit "Cloud migration RFP" ++ [newline] ++ lit "Scope: ...",
          lit "Cloud migration RFP")
  /\ py_strip (lit "Cloud migration RFP" ++ [newline] ++ lit "Scope: ...") <> []
  /\ (fst (py_splitext (py_basename (under_tmp (lit "temp_rfp.txt")))) <> [] ->
      lit "Cloud migration RFP" <> []).
Proof.
  assert (E : extract_text_from_file under_tmp one_file_exists one_file_exists
                one_file_size (fun _ => None) (fun _ => None) one_txt
                (lit "temp_rfp.txt")
              = Some (lit "Cloud migration RFP" ++ [newline] ++ lit "Scope: ...",
                      lit "Cloud migration RFP")) by (vm_compute; reflexivity).
  split; [exact E|].
  exact (extract_text_from_file_result under_tmp one_file_exists one_file_exists
           one_file_size (fun _ => None) (fun _ => None) one_txt
           (lit "temp_rfp.txt") _ _ E).
Defined.

(** The text a page adds: its text and a newline, nothing for a page whose
    extraction raises or gives [""]. *)
Definition page_piece (page : option str) : str :=
  match page with
  | Some page_text => if is_nonempty page_text then page_text ++ [newline] else []
  | None => []
  end.

Lemma skipn_nth_cons {A} (l : list A) k d :
  k < length l -> skipn k l = nth k l d :: skipn (S k) l.
Proof.
  revert k; induction l as [|x l IH]; intros k Hk; [cbn in Hk; lia|].
  destruct k as [|k]; [reflexivity|].
  cbn [skipn nth]; apply IH; cbn in Hk; lia.
Qed.

Lemma fold_pdf_page_step pages n :
  forall k acc, k + n <= length pages ->
  fold_left (pdf_page_step pages) (seq k n) acc
  = acc ++ concat (map page_piece (firstn n (skipn k pages))).
Proof.
  induction n as [|n IH]; intros k acc Hk.
  - cbn; rewrite app_nil_r; reflexivity.
  - cbn [seq fold_left].
    rewrite IH by lia.
    rewrite (skipn_nth_cons pages k None) by lia.
    cbn [firstn map concat].
    unfold pdf_page_step, page_piece.
    destruct (nth k pages None) as [t|]; [destruct (is_nonempty t)|];
      rewrite ?app_assoc, ?app_nil_r; reflexivity.
Qed.

(** The text of a PDF is made of its first 200 pages only: each page that
    yields a non-empty text contributes that text and a newline, in page
    order; a page whose extraction raises or is empty is skipped, and pages
    after the 200th are never read. *)
Theorem pdf_text_first_pages pages :
  pdf_text pages = concat (map page_piece (firstn max_pages pages)).
Proof.
  unfold pdf_text; cbv zeta.
  destruct (Nat.ltb_spec max_pages (length pages)) as [H|H].
  - rewrite fold_pdf_page_step by (cbn [plus]; lia); reflexivity.
  - rewrite fold_pdf_page_step by (cbn [plus]; lia).
    cbn [skipn app]; rewrite firstn_all, firstn_all2 by lia; reflexivity.
Qed.

Lemma last_index_of_notin c s : ~ In c s -> last_index_of c s = None.
Proof.
  induction s as [|x s IH]; intros Hn; [reflexivity|]; cbn.
  rewrite IH by (intros H; apply Hn; right; exact H).
  destruct (x =? c)%N eqn:Hx; [|reflexivity].
  apply N.eqb_eq in Hx; subst; exfalso; apply Hn; left; reflexivity.
Qed.

Lemma last_index_of_app_cons c a b :
  ~ In c b -> last_index_of c (a ++ c :: b) = Some (length a).
Proof.
  intros Hb; induction a as [|x a IH]; cbn [app length last_index_of].
  - rewrite last_index_of_notin by exact Hb; rewrite N.eqb_refl; reflexivity.
  - rewrite IH; reflexivity.
Qed.

Lemma py_basename_last dir name :
  ~ In slash name -> py_basename (dir ++ slash :: name) = name.
Proof.
  intros Hn; unfold py_basename; rewrite last_index_of_app_cons by exact Hn.
  rewrite skipn_app.
  replace (S (length dir) - length dir) with 1 by lia.
  rewrite skipn_all2 by lia; reflexivity.
Qed.

Lemma py_splitext_root_nonempty p : p <> [] -> fst (py_splitext p) <> [].
Proof.
  intros Hp; unfold py_splitext.
  destruct (last_index_of dot p) as [d|]; [|exact Hp]; cbv zeta.
  set (fi := match last_index_of slash p with Some i => S i | None => 0 end).
  destruct (fi <=? d); [|exact Hp].
  destruct (existsb _ (firstn (d - fi) (skipn fi p))) eqn:E; [|exact Hp].
  cbn [fst]; intros H.
  destruct (firstn (d - fi) (skipn fi p)) as [|x r] eqn:F; [discriminate|].
  assert (Hlen : 0 < length (firstn (d - fi) (skipn fi p))) by (rewrite F; cbn; lia).
  rewrite length_firstn, length_skipn in Hlen.
  apply (f_equal (@length N)) in H; rewrite length_firstn in H; cbn in H; lia.
Qed.

Definition temp_prefix : str := lit "temp_".

(** The upload tab of app.py saves the file as [f"temp_{name}"] and passes
    the extractor's title to [store_rfp_in_search]: that title is never
    empty, so the stored title is always the extractor's, never one derived
    from the analysis nor ["RFP Document"] (for an uploaded name without
    ['/'], with [os.path.abspath] putting the current directory in front). *)
Theorem app_upload_title abspath path_exists path_isfile getsize read_pdf
  read_docx read_txt dir name text title :
  ~ In slash name ->
  abspath (temp_prefix ++ name) = dir ++ slash :: temp_prefix ++ name ->
  extract_text_from_file abspath path_exists path_isfile getsize read_pdf
    read_docx read_txt (temp_prefix ++ name) = Some (text, title) ->
  title <> [] /\ forall py_str rfp_analysis,
    title_of py_str rfp_analysis (Some title) = Ok title.
Proof.
  intros Hn Ha E.
  destruct (extract_text_from_file_some _ _ _ _ _ _ _ _ _ _ E) as [_ Ht].
  rewrite Ha, py_basename_last in Ht.
  2: { intros H; apply in_app_or in H as [H|H]; [|exact (Hn H)].
       unfold temp_prefix in H; cbn in H; unfold slash in H;
       repeat (destruct H as [H|H]; [discriminate|]); exact H. }
  assert (Htitle : title <> [])
    by (apply Ht, py_splitext_root_nonempty; unfold temp_prefix; discriminate).
  split; [exact Htitle|].
  intros py_str a; unfold title_of.
  destruct title; [contradiction | reflexivity].
Qed.

Lemma app_upload_title_witness :
  let name := lit "rfp.txt" in
  (~ In slash name) /\
  under_tmp (temp_prefix ++ name) = lit "/tmp" ++ slash :: temp_prefix ++ name /\
  extract_text_from_file under_tmp one_file_exists one_file_exists one_file_size
    (fun _ => None) (fun _ => None) one_txt (temp_prefix ++ name)
  = Some (lit "Cloud migration RFP" ++ [newline] ++ lit "Scope: ...",
          lit "Cloud migration RFP") /\
  (lit "Cloud migration RFP" <> [] /\ forall py_str rfp_analysis,
     title_of py_str rfp_analysis (Some (lit "Cloud migration RFP"))
     = Ok (lit "Cloud migration RFP")).
Proof.
  intros name.
  assert (Hn : ~ In slash name)
    by (unfold name, slash; cbn; intros H;
        repeat (destruct H as [H|H]; [discriminate|]); exact H).
  assert (Ha : under_tmp (temp_prefix ++ name)
               = lit "/tmp" ++ slash :: temp_prefix ++ name) by reflexivity.
  assert (E : extract_text_from_file under_tmp one_file_exists one_file_exists
                one_file_size (fun _ => None) (fun _ => None) one_txt
                (temp_prefix ++ name)
              = Some (lit "Cloud migration RFP" ++ [newline] ++ lit "Scope: ...",
                      lit "Cloud migration RFP")) by (vm_compute; reflexivity).
  split; [exact Hn|split; [exact Ha|split; [exact E|]]].
  exact (app_upload_title under_tmp one_file_exists one_file_exists one_file_size
           (fun _ => None) (fun _ => None) one_txt (lit "/tmp") name _ _ Hn Ha E).
Defined.

(** ** The service button of app.py *)

(** The attributes [RFPAnalyzer.__init__] sets. *)
Record analyzer_state := mk_analyzer {
  search_client : option unit;
  openai_client : option unit;
  index_name : str
}.

(** [RFPAnalyzer(k1=v1, ...)]: [__init__(self)] takes no argument besides
    [self], so any keyword argument raises [TypeError] ([None]). *)
Definition rfp_analyzer_new (kwargs : list (str * str)) : option analyzer_state :=
  match kwargs with
  | [] => Some (mk_analyzer None None (lit "rfp-documents"))
  | _ :: _ => None
  end.

(** The values typed in the sidebar. *)
Record service_settings := mk_settings {
  search_endpoint : str;
  search_key : str;
  search_index_name : str;
  openai_endpoint : str;
  openai_key : str;
  openai_api_version : str
}.

(** A click on the initialization button: [st.session_state.analyzer =
    RFPAnalyzer(search_endpoint=..., ...)] inside [try], the error shown by
    the [except] branch leaving the session state as it was. *)
Definition app_init_button (analyzer : option analyzer_state)
  (s : service_settings) : option analyzer_state :=
  match rfp_analyzer_new
          [(lit "search_endpoint", search_endpoint s);
           (lit "search_key", search_key s);
           (lit "search_index_name", search_index_name s);
           (lit "openai_endpoint", openai_endpoint s);
           (lit "openai_key", openai_key s);
           (lit "openai_api_version", openai_api_version s)] with
  | Some a => Some a
  | None => analyzer
  end.

(** No sequence of clicks on the initialization button, whatever settings
    are typed, ever sets [st.session_state.analyzer]: it stays [None], so
    the analysis and search tabs only show their warning. *)
Theorem app_init_button_never_sets_analyzer (clicks : list service_settings) :
  fold_left app_init_button clicks None = None.
Proof.
  induction clicks as [|s clicks IH]; [reflexivity|].
  cbn [fold_left]; exact IH.
Qed.

(** *** Witnesses of the store theorems *)

Definition dump_nothing (_ : json) : str := [].
Definition upload_one (_ : Doc.t) : option nat := Some 1.

Lemma store_rfp_in_search_without_embedding_witness :
  flatten str_of_json_string [] (Some (lit "Cloud RFP"))
  = Ok (mk_flat (lit "Cloud RFP") (JStr []) (JStr []) [] [] (JStr []))
  /\ store_rfp_in_search failing_embeddings_api str_of_json_string dump_nothing
       upload_one [] [] [] (lit "content") (Some (lit "Cloud RFP")) []
     = (Ok (upload_status upload_one
              (build_document dump_nothing [] [] (lit "content") []
                 (mk_flat (lit "Cloud RFP") (JStr []) (JStr []) [] [] (JStr [])))),
        [] ++ firstn 1 (embedding_requests (lit "content"))).
Proof.
  split; [reflexivity|].
  apply store_rfp_in_search_without_embedding; reflexivity.
Defined.

(** An analysis whose category 1 is a string, not a dict. *)
Definition analysis_overview_string : dict := [(key_core_overview, JStr (lit "x"))].

Lemma store_rfp_in_search_flatten_error_witness :
  flatten str_of_json_string analysis_overview_string None = Err AttributeError
  /\ store_rfp_in_search zero_embeddings_api str_of_json_string dump_nothing
       upload_one [] [] analysis_overview_string (lit "content") None []
     = (Ok false, snd (get_embedding zero_embeddings_api (lit "content") [])).
Proof.
  split; [reflexivity|].
  apply (store_rfp_in_search_flatten_error _ _ _ _ _ _ _ _ _ AttributeError).
  reflexivity.
Defined.
